(** * Warehouse temperature monitor: a shallow embedding

    The development follows [warehouse_monitor.py] (the simulator: sensor
    registry, reading generator, alert evaluation, storage and the monitoring
    loop) and the active-alerts query of [app.py].

    Modelling choices, used throughout:
    - Python floats are idealised as rationals ([Q]); [round(x, 1)] is
      rounding to the nearest tenth, ties to even.
    - [random.random()] reads the next value of a stream of draws carried by
      the world; every statement about ranges assumes the draws lie in [0, 1).
    - the SQLite file is a pair of row lists; a database operation fails when
      the world's fault oracle says so, and then raises [StorageError].
    - exceptions are explicit: every method is a function from a world to
      either a value and a world, or a raised exception and a world. *)

From Stdlib Require Import List String ZArith QArith Qround Bool Lia Lqa Arith.
From Stdlib Require Import Permutation Sorted.
Import ListNotations.

Open Scope string_scope.
Open Scope list_scope.
Open Scope Q_scope.

(** ** Python dictionaries

    Insertion-ordered maps with string keys: assignment to an existing key
    keeps its position, assignment to a new key appends. *)

Module Dict.

Definition dict (V : Type) : Type := list (string * V).

Fixpoint get {V} (d : dict V) (k : string) : option V :=
  match d with
  | [] => None
  | (k', v) :: d' => if String.eqb k k' then Some v else get d' k
  end.

(** [d.get(k, default)] *)
Definition get_default {V} (d : dict V) (k : string) (dflt : V) : V :=
  match get d k with
  | Some v => v
  | None => dflt
  end.

(** [d[k] = v] *)
Fixpoint set {V} (d : dict V) (k : string) (v : V) : dict V :=
  match d with
  | [] => [(k, v)]
  | (k', v') :: d' =>
      if String.eqb k k' then (k', v) :: d' else (k', v') :: set d' k v
  end.

Definition keys {V} (d : dict V) : list string := map fst d.

End Dict.

(** ** Numbers *)

(** [a < b] on floats, as a boolean. *)
Definition Qltb (a b : Q) : bool :=
  match Qcompare a b with
  | Lt => true
  | _ => false
  end.

(** [a > b] on floats, as a boolean. *)
Definition Qgtb (a b : Q) : bool := Qltb b a.

(** Nearest integer, ties to the even neighbour. *)
Definition round_half_even (y : Q) : Z :=
  let f := Qfloor y in
  match Qcompare (y - inject_Z f) (1 # 2) with
  | Lt => f
  | Gt => (f + 1)%Z
  | Eq => if Z.even f then f else (f + 1)%Z
  end.

(** [round(x, ndigits)] *)
Definition round (x : Q) (ndigits : nat) : Q :=
  let scale := inject_Z (10 ^ Z.of_nat ndigits) in
  inject_Z (round_half_even (x * scale)) / scale.

(** A value with at most one decimal: ten times it is an integer. *)
Definition one_decimal (x : Q) : Prop := exists n : Z, x == inject_Z n / 10.

(** [a <= x <= b] *)
Definition in_range (a b x : Q) : Prop := a <= x /\ x <= b.

(** A draw of [random.random()]. *)
Definition unit_draw (u : Q) : Prop := 0 <= u /\ u < 1.

(** ** Data *)

(** [self.sensors[sensor_id]['last_reading']] *)
Record LastReading := {
  lr_temperature : Q;
  lr_timestamp : Z
}.

(** A value of [self.sensors]. *)
Record Sensor := {
  location : string;
  current_temp : Q;
  last_reading : option LastReading;
  is_active : bool
}.

(** A row of [temperature_readings]. *)
Record ReadingRow := {
  r_id : nat;
  r_sensor_id : string;
  r_temperature : Q;
  r_timestamp : Z;
  r_location : string
}.

(** A row of [alerts]. *)
Record AlertRow := {
  a_id : nat;
  a_sensor_id : string;
  a_alert_type : string;
  a_temperature : Q;
  a_timestamp : Z;
  a_resolved : bool
}.

(** What the logger and [print] receive. *)
Inductive message :=
| Text (s : string)
| HighTemperatureMsg (loc : string) (temperature threshold : Q)
| LowTemperatureMsg (loc : string) (temperature threshold : Q).

Inductive log_record :=
| INFO (m : message)
| WARNING (m : message)
| PRINT (m : message).

(** A thread created by [start_monitoring]: not yet inside
    [monitoring_loop], at the head of its [while], or terminated. *)
Inductive thread_state := Created | InLoop | Finished.

(** The attributes of [self]. *)
Record Monitor := {
  sensors : Dict.dict Sensor;
  is_running : bool;
  alert_threshold_high : Q;
  alert_threshold_low : Q
}.

(** The two tables of the SQLite file. *)
Record Database := {
  temperature_readings : list ReadingRow;
  alerts : list AlertRow
}.

(** Everything a method can read or change. *)
Record World := {
  self : Monitor;
  db : Database;
  log : list log_record;
  threads : list thread_state;
  rng : nat -> Q;          (* the draws of [random.random()] *)
  rng_pos : nat;           (* how many were consumed *)
  io_fail : nat -> bool;   (* which database operations fail *)
  io_pos : nat;            (* how many were attempted *)
  clock : Z                (* seconds *)
}.

Definition with_self (f : Monitor -> Monitor) (w : World) : World :=
  {| self := f (self w); db := db w; log := log w; threads := threads w;
     rng := rng w; rng_pos := rng_pos w; io_fail := io_fail w;
     io_pos := io_pos w; clock := clock w |}.

Definition with_db (f : Database -> Database) (w : World) : World :=
  {| self := self w; db := f (db w); log := log w; threads := threads w;
     rng := rng w; rng_pos := rng_pos w; io_fail := io_fail w;
     io_pos := io_pos w; clock := clock w |}.

Definition with_log (f : list log_record -> list log_record) (w : World) : World :=
  {| self := self w; db := db w; log := f (log w); threads := threads w;
     rng := rng w; rng_pos := rng_pos w; io_fail := io_fail w;
     io_pos := io_pos w; clock := clock w |}.

Definition with_threads (f : list thread_state -> list thread_state) (w : World) : World :=
  {| self := self w; db := db w; log := log w; threads := f (threads w);
     rng := rng w; rng_pos := rng_pos w; io_fail := io_fail w;
     io_pos := io_pos w; clock := clock w |}.

Definition with_rng_pos (f : nat -> nat) (w : World) : World :=
  {| self := self w; db := db w; log := log w; threads := threads w;
     rng := rng w; rng_pos := f (rng_pos w); io_fail := io_fail w;
     io_pos := io_pos w; clock := clock w |}.

Definition with_io_pos (f : nat -> nat) (w : World) : World :=
  {| self := self w; db := db w; log := log w; threads := threads w;
     rng := rng w; rng_pos := rng_pos w; io_fail := io_fail w;
     io_pos := f (io_pos w); clock := clock w |}.

Definition with_clock (f : Z -> Z) (w : World) : World :=
  {| self := self w; db := db w; log := log w; threads := threads w;
     rng := rng w; rng_pos := rng_pos w; io_fail := io_fail w;
     io_pos := io_pos w; clock := f (clock w) |}.

(** ** The monad of methods *)

Inductive exn :=
| KeyError (k : string)
| StorageError.

Inductive result (A : Type) :=
| Ok (a : A) (w : World)
| Raise (e : exn) (w : World).
Arguments Ok {A} a w.
Arguments Raise {A} e w.

Definition M (A : Type) : Type := World -> result A.

Definition ret {A} (a : A) : M A := fun w => Ok a w.

Definition bind {A B} (m : M A) (k : A -> M B) : M B :=
  fun w =>
    match m w with
    | Ok a w' => k a w'
    | Raise e w' => Raise e w'
    end.

Definition raise {A} (e : exn) : M A := fun w => Raise e w.

(** [try: m  except Exception as e: h e] *)
Definition try_except {A} (m : M A) (h : exn -> M A) : M A :=
  fun w =>
    match m w with
    | Ok a w' => Ok a w'
    | Raise e w' => h e w'
    end.

Definition get_world : M World := fun w => Ok w w.
Definition modify (f : World -> World) : M unit := fun w => Ok tt (f w).

Notation "x <- m ;; k" := (bind m (fun x => k))
  (at level 61, m at next level, right associativity).
Notation "m ;; k" := (bind m (fun _ => k))
  (at level 61, right associativity).

(** The world a computation ends in, whether it returned or raised. *)
Definition final_world {A} (r : result A) : World :=
  match r with
  | Ok _ w => w
  | Raise _ w => w
  end.

Definition raised {A} (r : result A) : option exn :=
  match r with
  | Ok _ _ => None
  | Raise e _ => Some e
  end.

(** ** Primitives of the runtime *)

(** [random.random()] *)
Definition random_random : M Q :=
  fun w => Ok (rng w (rng_pos w)) (with_rng_pos S w).

(** [random.uniform(a, b)] is [a + (b - a) * random()]. *)
Definition random_uniform (a b : Q) : M Q :=
  u <- random_random ;;
  ret (a + (b - a) * u).

(** One database operation: it raises when the oracle says so. *)
Definition db_operation : M unit :=
  fun w =>
    if io_fail w (io_pos w)
    then Raise StorageError (with_io_pos S w)
    else Ok tt (with_io_pos S w).

(** [sqlite3.connect(self.db_path)] *)
Definition sqlite3_connect : M unit := db_operation.

Definition logger_info (m : message) : M unit :=
  modify (with_log (fun l => l ++ [INFO m])).

Definition logger_warning (m : message) : M unit :=
  modify (with_log (fun l => l ++ [WARNING m])).

Definition print (m : message) : M unit :=
  modify (with_log (fun l => l ++ [PRINT m])).

(** [time.sleep(n)] *)
Definition time_sleep (n : Z) : M unit :=
  modify (with_clock (fun c => (c + n)%Z)).

(** [self.sensors[sensor_id]] *)
Definition sensors_lookup (sensor_id : string) : M Sensor :=
  fun w =>
    match Dict.get (sensors (self w)) sensor_id with
    | Some s => Ok s w
    | None => Raise (KeyError sensor_id) w
    end.

(** [cursor.execute(...)]: the statement runs inside the connection's open
    transaction; its effect reaches the file at [conn_commit]. *)
Definition cursor_execute : M unit := db_operation.

(** [conn.commit()], making the pending change [f] durable. *)
Definition conn_commit (f : Database -> Database) : M unit :=
  db_operation ;;
  modify (with_db f).

(** [INTEGER PRIMARY KEY AUTOINCREMENT]: one more than the largest id. *)
Definition next_id {R} (id_of : R -> nat) (rows : list R) : nat :=
  S (fold_right (fun r acc => Nat.max (id_of r) acc) 0%nat rows).

(** ** The monitor ([warehouse_monitor.py]) *)

Definition setup_logging : M unit :=
  logger_info (Text "Logging system initialized - warehouse_monitor.log created").

(** [CREATE TABLE IF NOT EXISTS] keeps the rows of an existing file. *)
Definition setup_database : M unit :=
  try_except
    (sqlite3_connect ;;
     cursor_execute ;;
     cursor_execute ;;
     conn_commit (fun d => d) ;;
     logger_info (Text "Database warehouse_temperature.db created successfully with tables"))
    (fun e => print (Text "Error creating database")).

Definition default_sensors : list (string * string) :=
  [ ("sensor_001", "Cold Storage Area");
    ("sensor_002", "Loading Dock");
    ("sensor_003", "Main Storage Area");
    ("sensor_004", "Office Area");
    ("sensor_005", "Shipping Department") ].

Definition set_sensors (f : Dict.dict Sensor -> Dict.dict Sensor) (m : Monitor) : Monitor :=
  {| sensors := f (sensors m);
     is_running := is_running m;
     alert_threshold_high := alert_threshold_high m;
     alert_threshold_low := alert_threshold_low m |}.

Definition set_is_running (b : bool) (m : Monitor) : Monitor :=
  {| sensors := sensors m;
     is_running := b;
     alert_threshold_high := alert_threshold_high m;
     alert_threshold_low := alert_threshold_low m |}.

(** [for x in xs: body x] *)
Fixpoint for_each {A} (xs : list A) (body : A -> M unit) : M unit :=
  match xs with
  | [] => ret tt
  | x :: xs' => body x ;; for_each xs' body
  end.

Definition setup_default_sensors : M unit :=
  for_each default_sensors
    (fun '(sensor_id, loc) =>
       t <- random_uniform 15 25 ;;
       modify (with_self (set_sensors (fun d =>
         Dict.set d sensor_id
           {| location := loc;
              current_temp := t;
              last_reading := None;
              is_active := true |})))) ;;
  logger_info (Text "5 sensors added for simulation").

(** [WarehouseTemperatureMonitor.__init__] *)
Definition init : M unit :=
  modify (with_self (fun _ =>
    {| sensors := [];
       is_running := false;
       alert_threshold_high := 25;
       alert_threshold_low := 2 |})) ;;
  setup_logging ;;
  setup_database ;;
  setup_default_sensors.

Definition base_temps : Dict.dict (Q * Q) :=
  [ ("sensor_001", (1, 10));
    ("sensor_002", (15, 30));
    ("sensor_003", (18, 28));
    ("sensor_004", (20, 24));
    ("sensor_005", (16, 26)) ].

(** The range [generate_random_temperature] draws from for [sensor_id]. *)
Definition base_range (sensor_id : string) : Q * Q :=
  Dict.get_default base_temps sensor_id (15, 25).

Definition generate_random_temperature (sensor_id : string) : M Q :=
  let '(base_min, base_max) := base_range sensor_id in
  temperature <- random_uniform base_min base_max ;;
  p <- random_random ;;
  temperature <-
    (if Qltb p (3 # 10) then
       q <- random_random ;;
       if Qltb q (1 # 2)
       then random_uniform 26 35
       else random_uniform (-5) 1
     else ret temperature) ;;
  ret (round temperature 1).

Definition insert_reading (sensor_id : string) (temperature : Q)
    (loc : string) (now : Z) (d : Database) : Database :=
  {| temperature_readings :=
       temperature_readings d ++
       [ {| r_id := next_id r_id (temperature_readings d);
            r_sensor_id := sensor_id;
            r_temperature := temperature;
            r_timestamp := now;
            r_location := loc |} ];
     alerts := alerts d |}.

Definition store_reading (sensor_id : string) (temperature : Q) : M unit :=
  sqlite3_connect ;;
  s <- sensors_lookup sensor_id ;;
  cursor_execute ;;
  w <- get_world ;;
  conn_commit (insert_reading sensor_id temperature (location s) (clock w)).

(** The [resolved] column takes its default, [FALSE]. *)
Definition insert_alert (sensor_id alert_type : string) (temperature : Q)
    (now : Z) (d : Database) : Database :=
  {| temperature_readings := temperature_readings d;
     alerts :=
       alerts d ++
       [ {| a_id := next_id a_id (alerts d);
            a_sensor_id := sensor_id;
            a_alert_type := alert_type;
            a_temperature := temperature;
            a_timestamp := now;
            a_resolved := false |} ] |}.

Definition store_alert (sensor_id alert_type : string) (temperature : Q) : M unit :=
  sqlite3_connect ;;
  cursor_execute ;;
  w <- get_world ;;
  conn_commit (insert_alert sensor_id alert_type temperature (clock w)).

Definition check_alerts (sensor_id : string) (temperature : Q) : M unit :=
  w <- get_world ;;
  if Qgtb temperature (alert_threshold_high (self w)) then
    s <- sensors_lookup sensor_id ;;
    let message :=
      HighTemperatureMsg (location s) temperature (alert_threshold_high (self w)) in
    store_alert sensor_id "HIGH_TEMPERATURE" temperature ;;
    logger_warning message ;;
    print message
  else if Qltb temperature (alert_threshold_low (self w)) then
    s <- sensors_lookup sensor_id ;;
    let message :=
      LowTemperatureMsg (location s) temperature (alert_threshold_low (self w)) in
    store_alert sensor_id "LOW_TEMPERATURE" temperature ;;
    logger_warning message ;;
    print message
  else ret tt.

(** [self.sensors[sensor_id]['last_reading'] = {...}] *)
Definition update_last_reading (sensor_id : string) (temperature : Q) : M unit :=
  s <- sensors_lookup sensor_id ;;
  w <- get_world ;;
  modify (with_self (set_sensors (fun d =>
    Dict.set d sensor_id
      {| location := location s;
         current_temp := current_temp s;
         last_reading :=
           Some {| lr_temperature := temperature; lr_timestamp := clock w |};
         is_active := is_active s |}))).

(** The body of the [for] of [monitoring_loop]. *)
Definition process_sensor (sensor_id : string) : M unit :=
  temperature <- generate_random_temperature sensor_id ;;
  store_reading sensor_id temperature ;;
  check_alerts sensor_id temperature ;;
  update_last_reading sensor_id temperature.

(** One pass of the [while] of [monitoring_loop]: every sensor, then sleep. *)
Definition tick : M unit :=
  w <- get_world ;;
  for_each (Dict.keys (sensors (self w))) process_sensor ;;
  time_sleep 3.

(** How a bounded run of the [while] ended: the flag was found cleared, or
    the bound on the number of passes was reached with the flag still set. *)
Inductive loop_status := Exited | StillRunning.

Fixpoint while_is_running (passes : nat) : M loop_status :=
  match passes with
  | O => ret StillRunning
  | S n =>
      w <- get_world ;;
      if is_running (self w)
      then tick ;; while_is_running n
      else ret Exited
  end.

(** [monitoring_loop], observed for at most [passes] passes. *)
Definition monitoring_loop (passes : nat) : M loop_status :=
  logger_info (Text "Starting temperature monitoring system - generating random data every 3 seconds") ;;
  while_is_running passes.

(** The new thread is recorded as [Created]; it runs when scheduled. *)
Definition start_monitoring : M unit :=
  modify (with_self (set_is_running true)) ;;
  modify (with_threads (fun ts => ts ++ [Created])) ;;
  logger_info (Text "Monitoring thread started").

Definition stop_monitoring : M unit :=
  modify (with_self (set_is_running false)) ;;
  logger_info (Text "Monitoring system stopped").

(** ** Threads

    The process is observed at the granularity of method calls of the main
    thread and of scheduling turns of the threads that [start_monitoring]
    created. A turn of a thread that is inside [monitoring_loop] is one
    evaluation of [while self.is_running] followed, when the flag is set, by
    the pass it guards. An exception that leaves [monitoring_loop] ends the
    thread; it does not reach the main thread. *)

Fixpoint set_nth {A} (i : nat) (x : A) (l : list A) : list A :=
  match l, i with
  | [], _ => []
  | _ :: l', O => x :: l'
  | y :: l', S i' => y :: set_nth i' x l'
  end.

Definition set_thread (i : nat) (st : thread_state) : M unit :=
  modify (with_threads (set_nth i st)).

Definition thread_turn (i : nat) : M unit :=
  w <- get_world ;;
  match nth_error (threads w) i with
  | Some Created =>
      logger_info (Text "Starting temperature monitoring system - generating random data every 3 seconds") ;;
      set_thread i InLoop
  | Some InLoop =>
      if is_running (self w)
      then try_except tick (fun _ => set_thread i Finished)
      else set_thread i Finished
  | Some Finished | None => ret tt
  end.

Inductive event :=
| CallStart            (* the main thread calls [start_monitoring] *)
| CallStop             (* the main thread calls [stop_monitoring] *)
| Turn (i : nat).      (* thread [i] is scheduled *)

Definition step (ev : event) : M unit :=
  match ev with
  | CallStart => start_monitoring
  | CallStop => stop_monitoring
  | Turn i => thread_turn i
  end.

Definition run_events (evs : list event) : M unit := for_each evs step.

Definition is_live (st : thread_state) : bool :=
  match st with
  | Finished => false
  | _ => true
  end.

(** The threads that are running, or about to run, [monitoring_loop]. *)
Definition active_workers (w : World) : nat :=
  List.length (filter is_live (threads w)).

Definition count_starts (evs : list event) : nat :=
  List.length (filter (fun ev => match ev with CallStart => true | _ => false end) evs).

(** A world in which no monitor exists yet: the file holds [d], the
    generator will deliver [draws], the storage faults are [faults]. *)
Definition boot (d : Database) (draws : nat -> Q) (faults : nat -> bool)
    (now : Z) : World :=
  {| self := {| sensors := []; is_running := false;
                alert_threshold_high := 0; alert_threshold_low := 0 |};
     db := d;
     log := [];
     threads := [];
     rng := draws; rng_pos := 0%nat;
     io_fail := faults; io_pos := 0%nat;
     clock := now |}.

Definition empty_db : Database := {| temperature_readings := []; alerts := [] |}.

(** ** The active-alerts query ([app.py]) *)

(** An element of the JSON array the route returns. *)
Record ActiveAlert := {
  j_sensor_id : string;
  j_alert_type : string;
  j_temperature : Q;
  j_timestamp : Z
}.

(** [ORDER BY timestamp DESC], by insertion. *)
Fixpoint insert_desc (a : AlertRow) (l : list AlertRow) : list AlertRow :=
  match l with
  | [] => [a]
  | b :: l' =>
      if (a_timestamp b <=? a_timestamp a)%Z
      then a :: b :: l'
      else b :: insert_desc a l'
  end.

Definition order_by_timestamp_desc (l : list AlertRow) : list AlertRow :=
  fold_right insert_desc [] l.

(** [SELECT sensor_id, alert_type, temperature, timestamp FROM alerts
     WHERE resolved = FALSE ORDER BY timestamp DESC] *)
Definition select_active_alerts (d : Database) : list AlertRow :=
  order_by_timestamp_desc (filter (fun a => negb (a_resolved a)) (alerts d)).

(** The columns the query selects from a row, as the JSON object built
    from them. *)
Definition selected_columns (row : AlertRow) : ActiveAlert :=
  {| j_sensor_id := a_sensor_id row;
     j_alert_type := a_alert_type row;
     j_temperature := a_temperature row;
     j_timestamp := a_timestamp row |}.

(** [get_active_alerts]: one JSON object per fetched row, in order. *)
Definition get_active_alerts (d : Database) : list ActiveAlert :=
  map selected_columns (select_active_alerts d).

(** ** Vocabulary of the statements *)

(** Every draw the generator will ever deliver is a value of
    [random.random()]. *)
Definition draws_in_unit (w : World) : Prop := forall n, unit_draw (rng w n).

(** The thresholds are those [__init__] assigns. *)
Definition thresholds_set (w : World) : Prop :=
  alert_threshold_high (self w) = 25 /\ alert_threshold_low (self w) = 2.

(** The next [n] database operations succeed. *)
Definition storage_healthy (w : World) (n : nat) : Prop :=
  forall k, (k < n)%nat -> io_fail w (io_pos w + k) = false.

(** The rows of [alerts] in [w'] that were not there in [w]. *)
Definition alerts_added (w w' : World) : list AlertRow :=
  skipn (List.length (alerts (db w))) (alerts (db w')).

(** The kinds of the alerts that [check_alerts sensor_id temperature]
    stores when called in [w]. *)
Definition alert_types_produced (sensor_id : string) (temperature : Q)
    (w : World) : list string :=
  map a_alert_type
    (alerts_added w (final_world (check_alerts sensor_id temperature w))).

(** What an alert row must satisfy when it is written. *)
Definition alert_ok (a : AlertRow) : Prop :=
  (25 < a_temperature a \/ a_temperature a < 2) /\ a_resolved a = false.

(** From [w] to [w'] the thresholds stayed as [__init__] set them and the
    [alerts] table only grew, by rows that satisfy [alert_ok]. *)
Definition alerts_extended (w w' : World) : Prop :=
  thresholds_set w' /\
  exists new, alerts (db w') = alerts (db w) ++ new /\ Forall alert_ok new.

(** [m] relates every world it is started in to the world it ends in,
    whether it returns or raises. *)
Definition respects (R : World -> World -> Prop) {A} (m : M A) : Prop :=
  forall w, R w (final_world (m w)).

(** Started with the thresholds set, the [alerts] table is only extended. *)
Definition alerts_kept (w w' : World) : Prop :=
  thresholds_set w -> alerts_extended w w'.

(** No thread was created and none ended. *)
Definition same_threads (w w' : World) : Prop := threads w' = threads w.

(** A relation between worlds that holds of every change the body of the
    monitoring loop makes outside the [alerts] table. *)
Record frame (R : World -> World -> Prop) : Prop := {
  frame_refl : forall w, R w w;
  frame_trans : forall w1 w2 w3, R w1 w2 -> R w2 w3 -> R w1 w3;
  frame_rng : forall f w, R w (with_rng_pos f w);
  frame_io : forall f w, R w (with_io_pos f w);
  frame_log : forall f w, R w (with_log f w);
  frame_clock : forall f w, R w (with_clock f w);
  frame_reading : forall sensor_id t loc now w,
    R w (with_db (insert_reading sensor_id t loc now) w);
  frame_sensors : forall f w, R w (with_self (set_sensors f) w)
}.

(** A draw observed on a grid of [n] equally likely values
    [0/n, 1/n, ..., (n-1)/n]. *)
Definition draw_grid (n : nat) : list Q :=
  map (fun k => inject_Z (Z.of_nat k) / inject_Z (Z.of_nat n)) (seq 0 n).

(** How many of the [n] grid values pass [test]. *)
Definition favourable (test : Q -> bool) (n : nat) : nat :=
  List.length (filter test (draw_grid n)).

(** Whether a value of [p = random.random()] selects the extreme branch of
    [generate_random_temperature], and whether [q] then selects the high
    range. *)
Definition takes_extreme (p : Q) : bool := Qltb p (3 # 10).
Definition takes_high (q : Q) : bool := Qltb q (1 # 2).

(** Rows in descending order of timestamp. *)
Definition rows_newer_first (a b : AlertRow) : Prop :=
  (a_timestamp b <= a_timestamp a)%Z.

(** Descending order of timestamps on the rows returned by the query. *)
Definition newer_first (x y : ActiveAlert) : Prop :=
  (j_timestamp y <= j_timestamp x)%Z.

(** The sensor [setup_default_sensors] registers from the [k]-th draw. *)
Definition fresh_sensor (w : World) (k : nat) (loc : string) : Sensor :=
  {| location := loc;
     current_temp := 15 + (25 - 15) * rng w (k + rng_pos w);
     last_reading := None;
     is_active := true |}.

(** The worlds used as concrete inputs. *)
Definition steady_draws : nat -> Q := fun _ => 4 # 5.
Definition no_faults : nat -> bool := fun _ => false.

(** A fresh file, a healthy disk, every draw equal to 0.8. *)
Definition demo_boot : World := boot empty_db steady_draws no_faults 1000.
Definition demo_world : World := final_world (init demo_boot).

(** As [demo_world], but one database operation fails, the eighth:
    [__init__] performs four, writing the reading of [sensor_001] takes
    three, and the next one opens the connection for [sensor_002]. *)
Definition failing_boot : World :=
  boot empty_db steady_draws (fun n => (n =? 7)%nat) 1000.
Definition failing_world : World := final_world (init failing_boot).

(** ** The console display ([display_updates])

    One update of the display prints, for every sensor that has a last
    reading, a line with a status, the location and the temperature. The
    bounds are the literals of the display, not the monitor's thresholds. *)

Inductive display_status := HIGH_ALERT | LOW_ALERT | NORMAL.

Definition display_status_of (temp : Q) : display_status :=
  if Qgtb temp 25 then HIGH_ALERT
  else if Qltb temp 2 then LOW_ALERT
  else NORMAL.

(** The lines of one update, in the order of [monitor.sensors.items()]. *)
Definition display_lines (m : Monitor) : list (display_status * string * Q) :=
  flat_map
    (fun '(sensor_id, data) =>
       match last_reading data with
       | Some lr =>
           let temp := lr_temperature lr in
           [ (display_status_of temp, location data, temp) ]
       | None => []
       end)
    (sensors m).

(** ** The other queries of [app.py] *)

(** An element of the array [get_current_temperatures] returns. *)
Record CurrentReading := {
  c_sensor_id : string;
  c_temperature : Q;
  c_location : string;
  c_timestamp : Z
}.

(** [MAX(timestamp)] over the rows of one sensor. *)
Fixpoint max_timestamp (sensor_id : string) (rows : list ReadingRow) : option Z :=
  match rows with
  | [] => None
  | r :: rows' =>
      if String.eqb (r_sensor_id r) sensor_id
      then match max_timestamp sensor_id rows' with
           | Some m => Some (Z.max (r_timestamp r) m)
           | None => Some (r_timestamp r)
           end
      else max_timestamp sensor_id rows'
  end.

(** The sensor ids of a table, each once, by first occurrence. *)
Fixpoint distinct_sensor_ids (rows : list ReadingRow) : list string :=
  match rows with
  | [] => []
  | r :: rows' =>
      r_sensor_id r ::
      filter (fun s => negb (String.eqb s (r_sensor_id r)))
             (distinct_sensor_ids rows')
  end.

(** [SELECT sensor_id, MAX(timestamp) as max_timestamp
     FROM temperature_readings GROUP BY sensor_id] *)
Definition latest (rows : list ReadingRow) : list (string * Z) :=
  flat_map
    (fun s =>
       match max_timestamp s rows with
       | Some m => [ (s, m) ]
       | None => []
       end)
    (distinct_sensor_ids rows).

(** The inner join of the table with [latest]: every pair of a row and a
    group with the same sensor id and the group's timestamp. *)
Definition select_current (rows : list ReadingRow) : list ReadingRow :=
  flat_map
    (fun tr =>
       map (fun _ => tr)
         (filter (fun '(s, m) =>
                    String.eqb (r_sensor_id tr) s && (r_timestamp tr =? m)%Z)
                 (latest rows)))
    rows.

Definition get_current_temperatures (d : Database) : list CurrentReading :=
  map (fun row =>
         {| c_sensor_id := r_sensor_id row;
            c_temperature := r_temperature row;
            c_location := r_location row;
            c_timestamp := r_timestamp row |})
      (select_current (temperature_readings d)).

(** An element of the array [get_temperature_history] returns. *)
Record HistoryPoint := {
  h_temperature : Q;
  h_timestamp : Z
}.

(** [ORDER BY timestamp], by insertion. *)
Fixpoint insert_asc (r : ReadingRow) (l : list ReadingRow) : list ReadingRow :=
  match l with
  | [] => [r]
  | b :: l' =>
      if (r_timestamp r <=? r_timestamp b)%Z
      then r :: b :: l'
      else b :: insert_asc r l'
  end.

Definition order_by_timestamp (l : list ReadingRow) : list ReadingRow :=
  fold_right insert_asc [] l.

(** [SELECT temperature, timestamp FROM temperature_readings
     WHERE sensor_id = ? AND timestamp >= datetime('now', ?)
     ORDER BY timestamp], given the value [cutoff] of the [datetime(...)]
    expression: [None] is SQL's NULL, which is what SQLite computes when it
    does not accept the modifier; a comparison with NULL selects no row. *)
Definition select_history (rows : list ReadingRow) (sensor_id : string)
    (cutoff : option Z) : list ReadingRow :=
  order_by_timestamp
    (filter (fun r =>
               String.eqb (r_sensor_id r) sensor_id &&
               match cutoff with
               | Some c => (c <=? r_timestamp r)%Z
               | None => false
               end)
            rows).

Definition get_temperature_history (d : Database) (sensor_id : string)
    (cutoff : option Z) : list HistoryPoint :=
  map (fun row =>
         {| h_temperature := r_temperature row;
            h_timestamp := r_timestamp row |})
      (select_history (temperature_readings d) sensor_id cutoff).

(** ** Further vocabulary *)

(** No database operation will ever fail. *)
Definition never_fails (w : World) : Prop := forall n, io_fail w n = false.

(** The rows of [temperature_readings] in [w'] that were not there in [w]. *)
Definition readings_added (w w' : World) : list ReadingRow :=
  skipn (List.length (temperature_readings (db w)))
        (temperature_readings (db w')).

(** Both tables of [w'] are those of [w] followed by further rows. *)
Definition append_only (w w' : World) : Prop :=
  (exists new, temperature_readings (db w') =
               temperature_readings (db w) ++ new) /\
  (exists new, alerts (db w') = alerts (db w) ++ new).

(** The running flag and the thresholds are the same. *)
Definition same_settings (w w' : World) : Prop :=
  is_running (self w') = is_running (self w) /\
  alert_threshold_high (self w') = alert_threshold_high (self w) /\
  alert_threshold_low (self w') = alert_threshold_low (self w).

(** Ascending order of timestamps. *)
Definition rows_older_first (a b : ReadingRow) : Prop :=
  (r_timestamp a <= r_timestamp b)%Z.

(** The row has the greatest timestamp among the rows of its sensor. *)
Definition is_latest (rows : list ReadingRow) (tr : ReadingRow) : bool :=
  forallb (fun o =>
             negb (String.eqb (r_sensor_id o) (r_sensor_id tr)) ||
             (r_timestamp o <=? r_timestamp tr)%Z)
          rows.

(** What [check_alerts] leaves alone when it returns. *)
Definition check_alerts_frame (w w' : World) : Prop :=
  self w' = self w /\
  temperature_readings (db w') = temperature_readings (db w) /\
  io_fail w' = io_fail w /\ clock w' = clock w /\ threads w' = threads w /\
  rng w' = rng w /\ rng_pos w' = rng_pos w.

(** The location the registry holds for a sensor id, if any. *)
Definition location_of (w : World) (sensor_id : string) : option string :=
  option_map location (Dict.get (sensors (self w)) sensor_id).

(** The last reading the registry holds for a sensor id, if any. *)
Definition last_reading_of (w : World) (sensor_id : string) : option LastReading :=
  match Dict.get (sensors (self w)) sensor_id with
  | Some s => last_reading s
  | None => None
  end.

(** What the registry holds besides the last readings: the sensors in
    order, each with its id, location, initial temperature and active flag. *)
Definition registry_entries (w : World) : list (string * string * Q * bool) :=
  map (fun '(k, s) => (k, location s, current_temp s, is_active s))
      (sensors (self w)).

(** The registry holds the same sensors with the same attributes, last
    readings apart. *)
Definition registry_kept (w w' : World) : Prop :=
  registry_entries w' = registry_entries w.

(** As [demo_world], but every draw is 0.1: the generator takes the
    extreme branch and, in it, the high range. *)
Definition extreme_world : World :=
  final_world (init (boot empty_db (fun _ => 1 # 10) no_faults 1000)).

(** The file after the monitor of [demo_world] was started and its thread
    made two passes, at times 1000 and 1003. *)
Definition two_pass_db : Database :=
  db (final_world
        (run_events [ CallStart; Turn 0; Turn 0; Turn 0 ] demo_world)).

(** Every alert of the file has a reading of the same sensor with the same
    temperature. *)
Definition alerts_have_readings (d : Database) : Prop :=
  Forall (fun a =>
            exists r, In r (temperature_readings d) /\
                      r_sensor_id r = a_sensor_id a /\
                      r_temperature r = a_temperature a)
         (alerts d).

(** [alerts_have_readings] is kept. *)
Definition keeps_alerts_backed (w w' : World) : Prop :=
  alerts_have_readings (db w) -> alerts_have_readings (db w').

(** The kind of alert [check_alerts] asks [store_alert] to write for a
    temperature, if any. *)
Definition alert_kind_of (w : World) (temperature : Q) : option string :=
  if Qgtb temperature (alert_threshold_high (self w)) then Some "HIGH_TEMPERATURE"
  else if Qltb temperature (alert_threshold_low (self w)) then Some "LOW_TEMPERATURE"
  else None.

(** A storage append of the loop fails for [sensor_id], whose temperature
    [t] was generated in [w2], and leaves the world [w3]: either the append
    of the reading raises [StorageError], or the reading is stored and the
    append of the alert that [check_alerts] asks for raises it. *)
Definition append_fails (sensor_id : string) (t : Q) (w2 w3 : World) : Prop :=
  store_reading sensor_id t w2 = Raise StorageError w3 \/
  exists w2' kind,
    store_reading sensor_id t w2 = Ok tt w2' /\
    alert_kind_of w2' t = Some kind /\
    store_alert sensor_id kind t w2' = Raise StorageError w3.

(** As [failing_world], but the operation that fails is the eleventh: the
    reading of [sensor_002] takes three more, and the next one opens the
    connection for its alert. *)
Definition alert_failing_boot : World :=
  boot empty_db steady_draws (fun n => (n =? 10)%nat) 1000.
Definition alert_failing_world : World := final_world (init alert_failing_boot).

(** * Properties *)

(** ** Comparisons and rounding *)

Lemma Qltb_lt a b : Qltb a b = true <-> a < b.
Proof.
  unfold Qltb. rewrite Qlt_alt. destruct (Qcompare a b); split; congruence.
Qed.

Lemma Qltb_ge a b : Qltb a b = false <-> b <= a.
Proof.
  split; intros H.
  - apply Qnot_lt_le. intros L. apply Qltb_lt in L. congruence.
  - destruct (Qltb a b) eqn:E; [ | reflexivity ].
    apply Qltb_lt in E. exfalso. apply (Qlt_not_le _ _ E H).
Qed.

Lemma Qgtb_gt a b : Qgtb a b = true <-> b < a.
Proof. unfold Qgtb. apply Qltb_lt. Qed.

Lemma Qgtb_le a b : Qgtb a b = false <-> a <= b.
Proof. unfold Qgtb. apply Qltb_ge. Qed.

Lemma uniform_in_range a b u :
  a <= b -> unit_draw u -> in_range a b (a + (b - a) * u).
Proof.
  intros Hab [H0 H1]. unfold in_range. split; nra.
Qed.

Lemma round_half_even_lower (n : Z) (y : Q) :
  inject_Z n <= y -> (n <= round_half_even y)%Z.
Proof.
  intros H. apply Qfloor_resp_le in H. rewrite Qfloor_Z in H.
  unfold round_half_even.
  destruct (Qcompare _ _); [ destruct (Z.even _) | | ]; lia.
Qed.

Lemma round_half_even_upper (n : Z) (y : Q) :
  y <= inject_Z n -> (round_half_even y <= n)%Z.
Proof.
  intros H. pose proof (Qfloor_resp_le _ _ H) as F. rewrite Qfloor_Z in F.
  unfold round_half_even.
  destruct (Z.eq_dec (Qfloor y) n) as [E | NE].
  - assert (L : y - inject_Z (Qfloor y) < 1 # 2) by (rewrite E; lra).
    apply (proj1 (Qlt_alt _ _)) in L.
    fold (Qcompare (y - inject_Z (Qfloor y)) (1 # 2)) in L.
    rewrite L. lia.
  - destruct (Qcompare _ _); [ destruct (Z.even _) | | ]; lia.
Qed.

Lemma round_1_eq x : round x 1 = inject_Z (round_half_even (x * 10)) / 10.
Proof. reflexivity. Qed.

Lemma round_one_decimal x : one_decimal (round x 1).
Proof. exists (round_half_even (x * 10)). rewrite round_1_eq. reflexivity. Qed.

Lemma round_in_tenths (L H : Z) (x : Q) :
  in_range (inject_Z L / 10) (inject_Z H / 10) x ->
  in_range (inject_Z L / 10) (inject_Z H / 10) (round x 1).
Proof.
  intros [Hl Hh]. rewrite round_1_eq.
  assert (A : (L <= round_half_even (x * 10))%Z).
  { apply round_half_even_lower.
    assert (E : inject_Z L == inject_Z L / 10 * 10) by field. lra. }
  assert (B : (round_half_even (x * 10) <= H)%Z).
  { apply round_half_even_upper.
    assert (E : inject_Z H == inject_Z H / 10 * 10) by field. lra. }
  rewrite Zle_Qle in A, B.
  split.
  - apply Qle_shift_div_l; [ reflexivity | ].
    assert (E : inject_Z L / 10 * 10 == inject_Z L) by field. lra.
  - apply Qle_shift_div_r; [ reflexivity | ].
    assert (E : inject_Z H / 10 * 10 == inject_Z H) by field. lra.
Qed.

(** Rounding to one decimal does not leave a range whose ends have one
    decimal. *)
Lemma round_in_range (a b x : Q) :
  one_decimal a -> one_decimal b -> in_range a b x -> in_range a b (round x 1).
Proof.
  intros [L HL] [H HH] [Hl Hh].
  destruct (round_in_tenths L H x) as [Rl Rh].
  - split; [ rewrite <- HL | rewrite <- HH ]; assumption.
  - split; [ rewrite HL | rewrite HH ]; assumption.
Qed.

Lemma one_decimal_tenths (n : Z) : one_decimal (inject_Z n / 10).
Proof. exists n. reflexivity. Qed.

Lemma one_decimal_Z (n : Z) : one_decimal (inject_Z n).
Proof. exists (n * 10)%Z. rewrite inject_Z_mult. field. Qed.

(** ** The reading generator *)

Lemma base_range_cases sensor_id :
  In (base_range sensor_id)
     [ (1, 10); (15, 30); (18, 28); (20, 24); (16, 26); (15, 25) ].
Proof.
  unfold base_range, Dict.get_default, base_temps. cbn [Dict.get].
  repeat match goal with
         | |- context [String.eqb ?a ?b] => destruct (String.eqb a b)
         end; cbn; tauto.
Qed.

Lemma base_range_wf sensor_id :
  fst (base_range sensor_id) <= snd (base_range sensor_id) /\
  one_decimal (fst (base_range sensor_id)) /\
  one_decimal (snd (base_range sensor_id)).
Proof.
  pose proof (base_range_cases sensor_id) as H. cbn [In] in H.
  repeat destruct H as [H | H]; try contradiction; rewrite <- H; cbn [fst snd];
    (split; [ discriminate | split; apply one_decimal_Z ]).
Qed.

Lemma base_range_unknown sensor_id :
  Dict.get base_temps sensor_id = None -> base_range sensor_id = (15, 25).
Proof.
  intros H. unfold base_range, Dict.get_default. rewrite H. reflexivity.
Qed.

(** The value and the world [generate_random_temperature] returns, by the
    three draws it may look at. *)
Lemma generate_random_temperature_eq sensor_id w :
  let n := rng_pos w in
  let u := rng w n in
  let p := rng w (S n) in
  let q := rng w (S (S n)) in
  let v := rng w (S (S (S n))) in
  let lo := fst (base_range sensor_id) in
  let hi := snd (base_range sensor_id) in
  generate_random_temperature sensor_id w =
    if Qltb p (3 # 10) then
      if Qltb q (1 # 2)
      then Ok (round (26 + (35 - 26) * v) 1) (with_rng_pos (fun k => S (S (S (S k)))) w)
      else Ok (round (-5 + (1 - -5) * v) 1) (with_rng_pos (fun k => S (S (S (S k)))) w)
    else Ok (round (lo + (hi - lo) * u) 1) (with_rng_pos (fun k => S (S k)) w).
Proof.
  cbv zeta. unfold generate_random_temperature.
  destruct (base_range sensor_id) as [lo hi]. cbn [fst snd].
  unfold bind, random_uniform, random_random, ret, bind. cbn.
  destruct (Qltb (rng w (S (rng_pos w))) (3 # 10)); cbn;
    [ destruct (Qltb (rng w (S (S (rng_pos w)))) (1 # 2)) | ]; reflexivity.
Qed.

Lemma count_below (c n : nat) :
  List.length (filter (fun k => (k <? c)%nat) (seq 0 n)) = Nat.min c n.
Proof.
  induction n as [ | n IH ].
  - rewrite Nat.min_0_r. reflexivity.
  - rewrite seq_S, filter_app, length_app, IH. cbn [filter Nat.add].
    destruct (Nat.ltb_spec n c); cbn [List.length]; lia.
Qed.

Lemma favourable_below (t : Q) (c n : nat) :
  (forall k, (k < n)%nat ->
     (inject_Z (Z.of_nat k) / inject_Z (Z.of_nat n) < t <-> (k < c)%nat)) ->
  favourable (fun x => Qltb x t) n = Nat.min c n.
Proof.
  intros H. unfold favourable, draw_grid.
  rewrite <- count_below.
  assert (G : forall l, (forall k, In k l -> (k < n)%nat) ->
     filter (fun x => Qltb x t)
       (map (fun k => inject_Z (Z.of_nat k) / inject_Z (Z.of_nat n)) l) =
     map (fun k => inject_Z (Z.of_nat k) / inject_Z (Z.of_nat n))
       (filter (fun k => (k <? c)%nat) l)).
  { induction l as [ | k l IH ]; intros Hl; [ reflexivity | ].
    cbn [map filter].
    assert (E : Qltb (inject_Z (Z.of_nat k) / inject_Z (Z.of_nat n)) t = (k <? c)%nat).
    { apply eq_true_iff_eq. rewrite Qltb_lt, Nat.ltb_lt.
      apply H, Hl. left. reflexivity. }
    rewrite E, IH by (intros; apply Hl; right; assumption).
    destruct (k <? c)%nat; reflexivity. }
  rewrite G, length_map; [ reflexivity | ].
  intros k Hk. apply in_seq in Hk. lia.
Qed.

Lemma grid_fraction (a d m k : nat) :
  (0 < d)%nat -> (0 < m)%nat ->
  inject_Z (Z.of_nat k) / inject_Z (Z.of_nat (d * m)) <
    inject_Z (Z.of_nat a) / inject_Z (Z.of_nat d) <->
  (k < a * m)%nat.
Proof.
  intros Hd Hm.
  rewrite Nat2Z.inj_mul, inject_Z_mult.
  assert (Dq : 0 < inject_Z (Z.of_nat d)).
  { change 0 with (inject_Z 0). rewrite <- Zlt_Qlt. lia. }
  assert (Mq : 0 < inject_Z (Z.of_nat m)).
  { change 0 with (inject_Z 0). rewrite <- Zlt_Qlt. lia. }
  rewrite Nat2Z.inj_lt, Nat2Z.inj_mul, Zlt_Qlt, inject_Z_mult.
  set (K := inject_Z (Z.of_nat k)). set (A := inject_Z (Z.of_nat a)).
  set (D := inject_Z (Z.of_nat d)) in *. set (Mm := inject_Z (Z.of_nat m)) in *.
  assert (E1 : K / (D * Mm) * (D * Mm) == K) by (field; split; lra).
  assert (E2 : A / D * (D * Mm) == A * Mm) by (field; lra).
  assert (P : 0 < D * Mm) by nra.
  split; intros H.
  - rewrite <- E1, <- E2. apply Qmult_lt_r; assumption.
  - rewrite <- E1, <- E2 in H. apply Qmult_lt_r in H; assumption.
Qed.

Lemma extreme_frequency (m : nat) :
  favourable takes_extreme (10 * m) = (3 * m)%nat /\
  favourable takes_high (2 * m) = m.
Proof.
  destruct m as [ | m ]; [ split; reflexivity | ].
  split.
  - unfold takes_extreme. rewrite (favourable_below _ (3 * S m)); [ lia | ].
    intros k _. 
    assert (E : 3 # 10 == inject_Z (Z.of_nat 3) / inject_Z (Z.of_nat 10)) by reflexivity.
    rewrite E. apply grid_fraction; lia.
  - unfold takes_high. rewrite (favourable_below _ (1 * S m)); [ lia | ].
    intros k _.
    assert (E : 1 # 2 == inject_Z (Z.of_nat 1) / inject_Z (Z.of_nat 2)) by reflexivity.
    rewrite E. apply grid_fraction; lia.
Qed.

Lemma takes_extreme_iff p : takes_extreme p = true <-> p < 3 # 10.
Proof. apply Qltb_lt. Qed.

Lemma takes_high_iff q : takes_high q = true <-> q < 1 # 2.
Proof. apply Qltb_lt. Qed.

Lemma generate_normal_in_range sensor_id w t w' :
  draws_in_unit w ->
  takes_extreme (rng w (S (rng_pos w))) = false ->
  generate_random_temperature sensor_id w = Ok t w' ->
  in_range (fst (base_range sensor_id)) (snd (base_range sensor_id)) t.
Proof.
  intros D P G. rewrite generate_random_temperature_eq in G.
  unfold takes_extreme in P. cbv zeta in G. rewrite P in G.
  injection G as <- _.
  destruct (base_range_wf sensor_id) as (Hle & Hlo & Hhi).
  apply round_in_range; try assumption.
  apply uniform_in_range; [ assumption | apply D ].
Qed.

(** C2. Whatever the sensor, when the draws are values of [random.random()]
    the generator returns a temperature with one decimal; it lies in
    [26, 35] when the second draw is below 0.3 and the third below 0.5, in
    [-5, 1] when the second is below 0.3 and the third is not, and in the
    sensor's own range when the second draw is at least 0.3. On a grid of
    equally likely draws, three values in ten select the extreme branch and
    one in two of those the high range. *)
Theorem generate_random_temperature_ranges sensor_id w :
  draws_in_unit w ->
  exists t w',
    generate_random_temperature sensor_id w = Ok t w' /\
    one_decimal t /\
    (let p := rng w (S (rng_pos w)) in
     let q := rng w (S (S (rng_pos w))) in
     (takes_extreme p = true -> takes_high q = true -> in_range 26 35 t) /\
     (takes_extreme p = true -> takes_high q = false -> in_range (-5) 1 t) /\
     (takes_extreme p = false ->
      in_range (fst (base_range sensor_id)) (snd (base_range sensor_id)) t)) /\
    (forall p, takes_extreme p = true <-> p < 3 # 10) /\
    (forall q, takes_high q = true <-> q < 1 # 2) /\
    (forall m, favourable takes_extreme (10 * m) = (3 * m)%nat /\
               favourable takes_high (2 * m) = m).
Proof.
  intros D.
  pose proof (generate_random_temperature_eq sensor_id w) as G. cbv zeta in G.
  unfold takes_extreme, takes_high. cbv zeta.
  destruct (Qltb (rng w (S (rng_pos w))) (3 # 10)) eqn:P;
    [ destruct (Qltb (rng w (S (S (rng_pos w)))) (1 # 2)) eqn:Q | ];
    eexists; eexists; (split; [ exact G | ]);
    (split; [ apply round_one_decimal | ]);
    (split; [ | split; [ apply takes_extreme_iff
                       | split; [ apply takes_high_iff | apply extreme_frequency ] ] ]).
  - split; [ | split ]; try discriminate. intros _ _.
    apply (round_in_range 26 35); try apply one_decimal_Z.
    apply uniform_in_range; [ discriminate | apply D ].
  - split; [ | split ]; try discriminate. intros _ _.
    apply (round_in_range (-5) 1); try apply (one_decimal_Z (-5)); try apply one_decimal_Z.
    apply uniform_in_range; [ discriminate | apply D ].
  - split; [ | split ]; try discriminate. intros _.
    destruct (base_range_wf sensor_id) as (Hle & Hlo & Hhi).
    apply round_in_range; try assumption.
    apply uniform_in_range; [ assumption | apply D ].
Qed.

Lemma demo_world_draws : draws_in_unit demo_world.
Proof. intros n. split; vm_compute; [ discriminate | reflexivity ]. Qed.

Lemma generate_random_temperature_ranges_witness :
  draws_in_unit demo_world /\
  exists t w',
    generate_random_temperature "sensor_002" demo_world = Ok t w' /\
    one_decimal t /\ in_range 15 30 t.
Proof.
  pose proof demo_world_draws as D.
  split; [ exact D | ].
  destruct (generate_random_temperature_ranges "sensor_002" demo_world D)
    as (t & w' & G & O & (_ & _ & N) & _).
  exists t, w'. split; [ exact G | split; [ exact O | ] ].
  apply N. reflexivity.
Defined.

(** ** Start-up *)

(** [setup_database] swallows every failure: it returns normally and leaves
    everything but the log and the operation counter as it was. *)
Lemma setup_database_returns w :
  exists l c,
    setup_database w = Ok tt (with_io_pos (fun _ => c) (with_log (fun _ => l) w)).
Proof.
  unfold setup_database, try_except, bind, sqlite3_connect, cursor_execute,
    conn_commit, db_operation, bind, logger_info, print, modify.
  cbn.
  destruct (io_fail w (io_pos w)); cbn;
    [ | destruct (io_fail w (S (io_pos w))); cbn;
        [ | destruct (io_fail w (S (S (io_pos w)))); cbn;
            [ | destruct (io_fail w (S (S (S (io_pos w))))); cbn ] ] ];
    destruct w; cbn; eexists; eexists; reflexivity.
Qed.

Lemma init_returns w0 :
  exists l c,
    init w0 =
    Ok tt
      {| self :=
           {| sensors :=
                [ ("sensor_001", fresh_sensor w0 0 "Cold Storage Area");
                  ("sensor_002", fresh_sensor w0 1 "Loading Dock");
                  ("sensor_003", fresh_sensor w0 2 "Main Storage Area");
                  ("sensor_004", fresh_sensor w0 3 "Office Area");
                  ("sensor_005", fresh_sensor w0 4 "Shipping Department") ];
              is_running := false;
              alert_threshold_high := 25;
              alert_threshold_low := 2 |};
         db := db w0;
         log := l;
         threads := threads w0;
         rng := rng w0;
         rng_pos := 5 + rng_pos w0;
         io_fail := io_fail w0;
         io_pos := c;
         clock := clock w0 |}.
Proof.
  unfold init, setup_logging.
  unfold bind at 1. unfold modify at 1.
  unfold bind at 1. unfold logger_info at 1. unfold modify at 1.
  unfold bind at 1.
  match goal with
  | |- context [setup_database ?w] =>
      destruct (setup_database_returns w) as (l & c & E); rewrite E
  end.
  exists (l ++ [INFO (Text "5 sensors added for simulation")]), c.
  reflexivity.
Qed.

(** C7. [__init__] returns normally, whatever the draws and the state of
    the disk, and leaves a registry that holds exactly the five default
    sensors, in order, each under its id with its location label, no last
    reading yet and the active flag set; the generator's range for each of
    the five ids is the one listed for it, and a draw that is not an extreme
    one lies in the range of the sensor it is drawn for. *)
Theorem default_sensors_registered w0 :
  exists w,
    init w0 = Ok tt w /\
    map (fun '(sensor_id, s) => (sensor_id, location s)) (sensors (self w)) =
      [ ("sensor_001", "Cold Storage Area");
        ("sensor_002", "Loading Dock");
        ("sensor_003", "Main Storage Area");
        ("sensor_004", "Office Area");
        ("sensor_005", "Shipping Department") ] /\
    Forall (fun '(_, s) => last_reading s = None /\ is_active s = true)
      (sensors (self w)) /\
    map (fun sensor_id => (sensor_id, base_range sensor_id))
      (Dict.keys (sensors (self w))) =
      [ ("sensor_001", (1, 10));
        ("sensor_002", (15, 30));
        ("sensor_003", (18, 28));
        ("sensor_004", (20, 24));
        ("sensor_005", (16, 26)) ] /\
    (forall sensor_id w1 t w2,
       draws_in_unit w1 ->
       takes_extreme (rng w1 (S (rng_pos w1))) = false ->
       generate_random_temperature sensor_id w1 = Ok t w2 ->
       in_range (fst (base_range sensor_id)) (snd (base_range sensor_id)) t).
Proof.
  destruct (init_returns w0) as (l & c & E).
  eexists. split; [ exact E | ].
  cbn [self sensors].
  split; [ reflexivity | ].
  split; [ repeat constructor | ].
  split; [ reflexivity | ].
  intros sensor_id w1 t w2. apply generate_normal_in_range.
Qed.

Lemma default_sensors_registered_witness :
  draws_in_unit demo_world /\
  takes_extreme (rng demo_world (S (rng_pos demo_world))) = false /\
  exists t w2,
    generate_random_temperature "sensor_004" demo_world = Ok t w2 /\
    in_range 20 24 t.
Proof.
  split; [ exact demo_world_draws | ].
  split; [ reflexivity | ].
  destruct (default_sensors_registered demo_boot) as (w & _ & _ & _ & _ & N).
  eexists. eexists. split; [ reflexivity | ].
  eapply (N "sensor_004" demo_world);
    [ exact demo_world_draws | reflexivity | reflexivity ].
Defined.

(** C9. For every sensor id and in every world the generator returns a
    temperature and raises nothing; for an id that [base_temps] does not
    list the range it draws from is [15, 25], and a draw that is not an
    extreme one lies in it. *)
Theorem generate_random_temperature_total sensor_id w :
  (exists t w', generate_random_temperature sensor_id w = Ok t w') /\
  (Dict.get base_temps sensor_id = None ->
   base_range sensor_id = (15, 25) /\
   (draws_in_unit w ->
    takes_extreme (rng w (S (rng_pos w))) = false ->
    forall t w',
      generate_random_temperature sensor_id w = Ok t w' -> in_range 15 25 t)).
Proof.
  split.
  - rewrite generate_random_temperature_eq. cbv zeta.
    destruct (Qltb _ _); [ destruct (Qltb _ _) | ]; eexists; eexists; reflexivity.
  - intros U. pose proof (base_range_unknown _ U) as B.
    split; [ exact B | ].
    intros D P t w' G.
    pose proof (generate_normal_in_range _ _ _ _ D P G) as R.
    rewrite B in R. exact R.
Qed.

Lemma generate_random_temperature_total_witness :
  Dict.get base_temps "sensor_999" = None /\
  draws_in_unit demo_world /\
  takes_extreme (rng demo_world (S (rng_pos demo_world))) = false /\
  exists t w',
    generate_random_temperature "sensor_999" demo_world = Ok t w' /\
    in_range 15 25 t.
Proof.
  split; [ reflexivity | ].
  split; [ exact demo_world_draws | ].
  split; [ reflexivity | ].
  destruct (generate_random_temperature_total "sensor_999" demo_world)
    as ((t & w' & G) & U).
  exists t, w'. split; [ exact G | ].
  destruct (U eq_refl) as (_ & R).
  apply (R demo_world_draws eq_refl t w' G).
Defined.

(** C10. A draw from a sensor's own range can raise an alert: in the world
    after start-up in which every draw is 0.8, the generator called for
    [sensor_002] does not take the extreme branch, returns a temperature
    that lies in that sensor's range [15, 30] and is above 25, and
    [check_alerts] stores one [HIGH_TEMPERATURE] alert for it. *)
Theorem normal_draw_raises_high_alert :
  exists w t w1 w2,
    w = final_world (init demo_boot) /\
    draws_in_unit w /\
    takes_extreme (rng w (S (rng_pos w))) = false /\
    generate_random_temperature "sensor_002" w = Ok t w1 /\
    base_range "sensor_002" = (15, 30) /\
    in_range 15 30 t /\
    25 < t /\
    check_alerts "sensor_002" t w1 = Ok tt w2 /\
    alert_types_produced "sensor_002" t w1 = [ "HIGH_TEMPERATURE" ] /\
    map a_temperature (alerts_added w1 w2) = [ t ].
Proof.
  pose (w1 := final_world (generate_random_temperature "sensor_002" demo_world)).
  exists demo_world, (270 # 10), w1,
    (final_world (check_alerts "sensor_002" (270 # 10) w1)).
  split; [ reflexivity | ].
  split; [ exact demo_world_draws | ].
  split; [ reflexivity | ].
  split; [ vm_compute; reflexivity | ].
  split; [ reflexivity | ].
  split; [ split; discriminate | ].
  split; [ reflexivity | ].
  split; [ vm_compute; reflexivity | ].
  split; vm_compute; reflexivity.
Qed.

(** ** Alert evaluation *)

Lemma storage_healthy_3 w :
  storage_healthy w 3 ->
  io_fail w (io_pos w) = false /\
  io_fail w (S (io_pos w)) = false /\
  io_fail w (S (S (io_pos w))) = false.
Proof.
  intros H.
  pose proof (H 0%nat ltac:(lia)) as H0.
  pose proof (H 1%nat ltac:(lia)) as H1.
  pose proof (H 2%nat ltac:(lia)) as H2.
  rewrite Nat.add_0_r in H0.
  replace (io_pos w + 1)%nat with (S (io_pos w)) in H1 by lia.
  replace (io_pos w + 2)%nat with (S (S (io_pos w))) in H2 by lia.
  auto.
Qed.

Lemma store_alert_healthy sensor_id alert_type temperature w :
  storage_healthy w 3 ->
  store_alert sensor_id alert_type temperature w =
    Ok tt (with_db (insert_alert sensor_id alert_type temperature (clock w))
             (with_io_pos (fun k => S (S (S k))) w)).
Proof.
  intros H. destruct (storage_healthy_3 w H) as (H0 & H1 & H2).
  unfold store_alert, sqlite3_connect, cursor_execute, conn_commit,
    db_operation, bind, get_world, modify.
  rewrite H0. cbn. rewrite H1. cbn. rewrite H2. reflexivity.
Qed.

(** The row [store_alert] writes in [w]. *)
Lemma alerts_added_app w w' new :
  alerts (db w') = alerts (db w) ++ new -> alerts_added w w' = new.
Proof.
  intros E. unfold alerts_added. rewrite E.
  rewrite skipn_app, skipn_all, Nat.sub_diag. reflexivity.
Qed.

Lemma check_alerts_healthy sensor_id s temperature w :
  Dict.get (sensors (self w)) sensor_id = Some s ->
  storage_healthy w 3 ->
  raised (check_alerts sensor_id temperature w) = None /\
  alert_types_produced sensor_id temperature w =
    if Qgtb temperature (alert_threshold_high (self w))
    then [ "HIGH_TEMPERATURE" ]
    else if Qltb temperature (alert_threshold_low (self w))
         then [ "LOW_TEMPERATURE" ]
         else [].
Proof.
  intros K H. unfold alert_types_produced.
  assert (E : check_alerts sensor_id temperature w =
    if Qgtb temperature (alert_threshold_high (self w))
    then (store_alert sensor_id "HIGH_TEMPERATURE" temperature ;;
          logger_warning (HighTemperatureMsg (location s) temperature
                            (alert_threshold_high (self w))) ;;
          print (HighTemperatureMsg (location s) temperature
                   (alert_threshold_high (self w)))) w
    else if Qltb temperature (alert_threshold_low (self w))
         then (store_alert sensor_id "LOW_TEMPERATURE" temperature ;;
               logger_warning (LowTemperatureMsg (location s) temperature
                                 (alert_threshold_low (self w))) ;;
               print (LowTemperatureMsg (location s) temperature
                        (alert_threshold_low (self w)))) w
         else Ok tt w).
  { unfold check_alerts, bind, get_world, sensors_lookup. cbv beta iota.
    destruct (Qgtb _ _); [ | destruct (Qltb _ _) ];
      try rewrite K; reflexivity. }
  rewrite E. clear E.
  destruct (Qgtb temperature (alert_threshold_high (self w)));
    [ | destruct (Qltb temperature (alert_threshold_low (self w))) ].
  - unfold bind. rewrite store_alert_healthy by assumption.
    split; [ reflexivity | ].
    erewrite alerts_added_app; [ | reflexivity ]. reflexivity.
  - unfold bind. rewrite store_alert_healthy by assumption.
    split; [ reflexivity | ].
    erewrite alerts_added_app; [ | reflexivity ]. reflexivity.
  - split; [ reflexivity | ].
    unfold final_world, alerts_added. rewrite skipn_all. reflexivity.
Qed.

(** C1. For a registered sensor, with the thresholds of [__init__] and a
    disk that accepts the write, [check_alerts] raises nothing and stores a
    [HIGH_TEMPERATURE] alert exactly when the temperature is above 25, a
    [LOW_TEMPERATURE] alert exactly when it is below 2, and no alert exactly
    when it is neither; for every temperature exactly one of the three
    happens. *)
Theorem check_alerts_classification sensor_id s temperature w :
  thresholds_set w ->
  Dict.get (sensors (self w)) sensor_id = Some s ->
  storage_healthy w 3 ->
  let produced := alert_types_produced sensor_id temperature w in
  raised (check_alerts sensor_id temperature w) = None /\
  (produced = [ "HIGH_TEMPERATURE" ] <-> 25 < temperature) /\
  (produced = [ "LOW_TEMPERATURE" ] <-> temperature < 2) /\
  (produced = [] <-> ~ 25 < temperature /\ ~ temperature < 2) /\
  ((produced = [ "HIGH_TEMPERATURE" ] /\
    produced <> [ "LOW_TEMPERATURE" ] /\ produced <> []) \/
   (produced <> [ "HIGH_TEMPERATURE" ] /\
    produced = [ "LOW_TEMPERATURE" ] /\ produced <> []) \/
   (produced <> [ "HIGH_TEMPERATURE" ] /\
    produced <> [ "LOW_TEMPERATURE" ] /\ produced = [])).
Proof.
  intros [TH TL] K H. cbv zeta.
  destruct (check_alerts_healthy sensor_id s temperature w K H) as [R P].
  rewrite P, TH, TL. split; [ exact R | ]. clear P R.
  destruct (Qgtb temperature 25) eqn:G;
    [ | destruct (Qltb temperature 2) eqn:L ].
  - apply Qgtb_gt in G.
    repeat split; try discriminate; try tauto; try (intros; lra).
    left. repeat split; discriminate.
  - apply Qgtb_le in G. apply Qltb_lt in L.
    repeat split; try discriminate; try tauto; try (intros; lra).
    right. left. repeat split; discriminate.
  - apply Qgtb_le in G. apply Qltb_ge in L.
    repeat split; try discriminate; try tauto; try (intros; lra).
    right. right. repeat split; discriminate.
Qed.

Lemma demo_world_thresholds : thresholds_set demo_world.
Proof. split; reflexivity. Qed.

Lemma demo_world_healthy n : storage_healthy demo_world n.
Proof. intros k _. reflexivity. Qed.

Lemma check_alerts_classification_witness :
  thresholds_set demo_world /\
  Dict.get (sensors (self demo_world)) "sensor_002" =
    Some (fresh_sensor demo_boot 1 "Loading Dock") /\
  storage_healthy demo_world 3 /\
  (alert_types_produced "sensor_002" 30 demo_world = [ "HIGH_TEMPERATURE" ] <->
   25 < 30).
Proof.
  split; [ exact demo_world_thresholds | ].
  split; [ reflexivity | ].
  split; [ exact (demo_world_healthy 3) | ].
  apply (check_alerts_classification "sensor_002"
           (fresh_sensor demo_boot 1 "Loading Dock") 30 demo_world
           demo_world_thresholds eq_refl (demo_world_healthy 3)).
Defined.

(** ** Reasoning about sequences of statements *)

Section Respects.

Variable R : World -> World -> Prop.
Hypothesis R_frame : frame R.

Lemma respects_ret {A} (a : A) : respects R (ret a).
Proof. intros w. apply (frame_refl R R_frame). Qed.

Lemma respects_get_world : respects R get_world.
Proof. intros w. apply (frame_refl R R_frame). Qed.

Lemma respects_bind {A B} (m : M A) (k : A -> M B) :
  respects R m -> (forall a, respects R (k a)) -> respects R (bind m k).
Proof.
  intros Hm Hk w. specialize (Hm w). unfold bind.
  destruct (m w) as [ a w' | e w' ]; cbn [final_world] in *.
  - apply (frame_trans R R_frame _ w'); [ exact Hm | apply Hk ].
  - exact Hm.
Qed.

Lemma respects_try_except {A} (m : M A) (h : exn -> M A) :
  respects R m -> (forall e, respects R (h e)) -> respects R (try_except m h).
Proof.
  intros Hm Hh w. specialize (Hm w). unfold try_except.
  destruct (m w) as [ a w' | e w' ]; cbn [final_world] in *.
  - exact Hm.
  - apply (frame_trans R R_frame _ w'); [ exact Hm | apply Hh ].
Qed.

Lemma respects_for_each {A} (xs : list A) (body : A -> M unit) :
  (forall x, respects R (body x)) -> respects R (for_each xs body).
Proof.
  intros Hb. induction xs as [ | x xs IH ]; cbn [for_each].
  - apply respects_ret.
  - apply respects_bind; [ apply Hb | intros _; exact IH ].
Qed.

Lemma respects_modify (f : World -> World) :
  (forall w, R w (f w)) -> respects R (modify f).
Proof. intros H w. apply H. Qed.

Lemma respects_sensors_lookup sensor_id : respects R (sensors_lookup sensor_id).
Proof.
  intros w. unfold sensors_lookup.
  destruct (Dict.get _ _); apply (frame_refl R R_frame).
Qed.

Lemma respects_random_random : respects R random_random.
Proof. intros w. apply (frame_rng R R_frame). Qed.

Lemma respects_db_operation : respects R db_operation.
Proof.
  intros w. unfold db_operation.
  destruct (io_fail w (io_pos w)); apply (frame_io R R_frame).
Qed.

Lemma respects_logger_info m : respects R (logger_info m).
Proof. intros w. apply (frame_log R R_frame). Qed.

Lemma respects_logger_warning m : respects R (logger_warning m).
Proof. intros w. apply (frame_log R R_frame). Qed.

Lemma respects_print m : respects R (print m).
Proof. intros w. apply (frame_log R R_frame). Qed.

Lemma respects_time_sleep n : respects R (time_sleep n).
Proof. intros w. apply (frame_clock R R_frame). Qed.

Lemma respects_commit_reading sensor_id t loc now :
  respects R (conn_commit (insert_reading sensor_id t loc now)).
Proof.
  apply respects_bind; [ apply respects_db_operation | intros _ ].
  intros w. apply (frame_reading R R_frame).
Qed.

Lemma respects_set_sensors f : respects R (modify (with_self (set_sensors f))).
Proof. intros w. apply (frame_sensors R R_frame). Qed.

Create HintDb respects.

Hint Resolve respects_ret respects_get_world respects_sensors_lookup
  respects_random_random respects_db_operation respects_logger_info
  respects_logger_warning respects_print respects_time_sleep
  respects_commit_reading respects_set_sensors : respects.

(** Decompose a sequence of statements, closing each part with what is
    known about it. *)
Ltac respects_step :=
  first
    [ solve [ auto with respects ]
    | apply respects_bind; [ | intros ]
    | apply respects_try_except; [ | intros ]
    | apply respects_for_each; intros ].

Lemma respects_random_uniform a b : respects R (random_uniform a b).
Proof. unfold random_uniform. repeat respects_step. Qed.

Hint Resolve respects_random_uniform : respects.

Lemma respects_generate sensor_id :
  respects R (generate_random_temperature sensor_id).
Proof.
  unfold generate_random_temperature. destruct (base_range sensor_id).
  repeat respects_step.
  destruct (Qltb _ _); repeat respects_step.
  destruct (Qltb _ _); repeat respects_step.
Qed.

Lemma respects_store_reading sensor_id t :
  respects R (store_reading sensor_id t).
Proof.
  unfold store_reading, sqlite3_connect, cursor_execute.
  repeat respects_step.
Qed.

Lemma respects_update_last_reading sensor_id t :
  respects R (update_last_reading sensor_id t).
Proof. unfold update_last_reading. repeat respects_step. Qed.

(** What remains is [check_alerts], the one statement of the loop that
    writes to [alerts]. *)
Hypothesis R_check_alerts :
  forall sensor_id t, respects R (check_alerts sensor_id t).

Hint Resolve respects_generate respects_store_reading
  respects_update_last_reading R_check_alerts : respects.

Lemma respects_process_sensor sensor_id :
  respects R (process_sensor sensor_id).
Proof. unfold process_sensor. repeat respects_step. Qed.

Hint Resolve respects_process_sensor : respects.

Lemma respects_tick : respects R tick.
Proof. unfold tick. repeat respects_step. Qed.

Hint Resolve respects_tick : respects.

Lemma respects_while_is_running passes : respects R (while_is_running passes).
Proof.
  induction passes as [ | n IH ]; cbn [while_is_running];
    repeat respects_step.
  destruct (is_running _); repeat respects_step.
Qed.

End Respects.

(** ** Alerts only grow, by rows outside the thresholds *)

Lemma alerts_extended_refl w : thresholds_set w -> alerts_extended w w.
Proof.
  intros T. split; [ exact T | ]. exists []. rewrite app_nil_r. auto.
Qed.

Lemma alerts_extended_trans w1 w2 w3 :
  alerts_extended w1 w2 -> alerts_extended w2 w3 -> alerts_extended w1 w3.
Proof.
  intros (_ & n1 & E1 & F1) (T & n2 & E2 & F2).
  split; [ exact T | ]. exists (n1 ++ n2).
  rewrite E2, E1, app_assoc. split; [ reflexivity | ].
  apply Forall_app. split; assumption.
Qed.

(** A change that leaves the thresholds and the [alerts] table alone. *)
Lemma alerts_kept_same w w' :
  alert_threshold_high (self w') = alert_threshold_high (self w) ->
  alert_threshold_low (self w') = alert_threshold_low (self w) ->
  alerts (db w') = alerts (db w) ->
  alerts_kept w w'.
Proof.
  intros H L D [TH TL]. split.
  - split; congruence.
  - exists []. rewrite D, app_nil_r. auto.
Qed.

Lemma alerts_kept_frame : frame alerts_kept.
Proof.
  constructor; intros; try (apply alerts_kept_same; reflexivity).
  intros T. eapply alerts_extended_trans; [ apply H, T | ].
  apply H0. apply H, T.
Qed.

Lemma alerts_kept_store_alert sensor_id alert_type t :
  25 < t \/ t < 2 -> respects alerts_kept (store_alert sensor_id alert_type t).
Proof.
  intros Ht. unfold store_alert, sqlite3_connect, cursor_execute, conn_commit.
  pose proof alerts_kept_frame as F.
  apply respects_bind; [ exact F | apply respects_db_operation, F | intros _ ].
  apply respects_bind; [ exact F | apply respects_db_operation, F | intros _ ].
  apply respects_bind; [ exact F | apply respects_get_world, F | intros w0 ].
  apply respects_bind; [ exact F | apply respects_db_operation, F | intros _ ].
  intros w T. split; [ exact T | ].
  eexists. cbn. split; [ reflexivity | ].
  constructor; [ | constructor ]. split; [ exact Ht | reflexivity ].
Qed.

Lemma alerts_kept_check_alerts sensor_id t :
  respects alerts_kept (check_alerts sensor_id t).
Proof.
  intros w T. pose proof T as [TH TL]. pose proof alerts_kept_frame as F.
  unfold check_alerts. unfold bind at 1. unfold get_world. cbv beta iota.
  rewrite TH, TL.
  destruct (Qgtb t 25) eqn:G; [ | destruct (Qltb t 2) eqn:L ].
  - apply Qgtb_gt in G. revert w T TH TL.
    match goal with
    | |- forall w, _ -> _ -> _ -> alerts_extended w (final_world (?m w)) =>
        assert (K : respects alerts_kept m)
    end.
    { apply respects_bind; [ exact F | apply respects_sensors_lookup, F | intros s ].
      apply respects_bind;
        [ exact F | apply alerts_kept_store_alert; left; exact G | intros _ ].
      apply respects_bind; [ exact F | apply respects_logger_warning, F | intros _ ].
      apply respects_print, F. }
    intros w T _ _. apply K, T.
  - apply Qltb_lt in L. revert w T TH TL.
    match goal with
    | |- forall w, _ -> _ -> _ -> alerts_extended w (final_world (?m w)) =>
        assert (K : respects alerts_kept m)
    end.
    { apply respects_bind; [ exact F | apply respects_sensors_lookup, F | intros s ].
      apply respects_bind;
        [ exact F | apply alerts_kept_store_alert; right; exact L | intros _ ].
      apply respects_bind; [ exact F | apply respects_logger_warning, F | intros _ ].
      apply respects_print, F. }
    intros w T _ _. apply K, T.
  - apply alerts_extended_refl, T.
Qed.

Lemma alerts_kept_tick : respects alerts_kept tick.
Proof.
  apply respects_tick; [ exact alerts_kept_frame | exact alerts_kept_check_alerts ].
Qed.

Lemma alerts_kept_set_thread i st : respects alerts_kept (set_thread i st).
Proof. intros w. apply alerts_kept_same; reflexivity. Qed.

Lemma alerts_kept_thread_turn i : respects alerts_kept (thread_turn i).
Proof.
  pose proof alerts_kept_frame as F.
  unfold thread_turn.
  apply respects_bind; [ exact F | apply respects_get_world, F | intros w ].
  destruct (nth_error _ _) as [ [ | | ] | ].
  - apply respects_bind; [ exact F | apply respects_logger_info, F | intros _ ].
    apply alerts_kept_set_thread.
  - destruct (is_running _).
    + apply respects_try_except; [ exact F | apply alerts_kept_tick | intros _ ].
      apply alerts_kept_set_thread.
    + apply alerts_kept_set_thread.
  - apply respects_ret, F.
  - apply respects_ret, F.
Qed.

Lemma alerts_kept_start_monitoring : respects alerts_kept start_monitoring.
Proof. intros w. apply alerts_kept_same; reflexivity. Qed.

Lemma alerts_kept_stop_monitoring : respects alerts_kept stop_monitoring.
Proof. intros w. apply alerts_kept_same; reflexivity. Qed.

Lemma alerts_kept_run_events evs : respects alerts_kept (run_events evs).
Proof.
  apply respects_for_each; [ exact alerts_kept_frame | ].
  intros [ | | i ]; cbn [step].
  - apply alerts_kept_start_monitoring.
  - apply alerts_kept_stop_monitoring.
  - apply alerts_kept_thread_turn.
Qed.

(** C5. From any initial file, disk and draws, after [__init__] and any
    sequence of calls to [start_monitoring] and [stop_monitoring] and of
    turns of the monitoring threads, the [alerts] table is the initial one
    followed by the rows created since, and each of these has a temperature
    above 25 or below 2 and its resolved flag false. *)
Theorem alerts_created_outside_thresholds w0 evs :
  exists new,
    alerts (db (final_world (run_events evs (final_world (init w0))))) =
      alerts (db w0) ++ new /\
    Forall (fun a => (25 < a_temperature a \/ a_temperature a < 2) /\
                     a_resolved a = false) new.
Proof.
  destruct (init_returns w0) as (l & c & E). rewrite E. cbn [final_world].
  match goal with
  | |- context [run_events evs ?w] =>
      destruct (alerts_kept_run_events evs w) as (_ & new & N & F)
  end.
  - split; reflexivity.
  - exists new. cbn [db] in N. split; [ exact N | exact F ].
Qed.

(** ** Threads and the life cycle *)

Lemma same_threads_frame : frame same_threads.
Proof.
  constructor; unfold same_threads; intros; try reflexivity.
  congruence.
Qed.

Lemma same_threads_check_alerts sensor_id t :
  respects same_threads (check_alerts sensor_id t).
Proof.
  pose proof same_threads_frame as F.
  assert (S : forall kind, respects same_threads (store_alert sensor_id kind t)).
  { intros kind. unfold store_alert, sqlite3_connect, cursor_execute, conn_commit.
    apply respects_bind; [ exact F | apply respects_db_operation, F | intros _ ].
    apply respects_bind; [ exact F | apply respects_db_operation, F | intros _ ].
    apply respects_bind; [ exact F | apply respects_get_world, F | intros w0 ].
    apply respects_bind; [ exact F | apply respects_db_operation, F | intros _ ].
    intros w. reflexivity. }
  unfold check_alerts.
  apply respects_bind; [ exact F | apply respects_get_world, F | intros w0 ].
  destruct (Qgtb _ _); [ | destruct (Qltb _ _) ].
  - apply respects_bind; [ exact F | apply respects_sensors_lookup, F | intros s ].
    apply respects_bind; [ exact F | apply S | intros _ ].
    apply respects_bind; [ exact F | apply respects_logger_warning, F | intros _ ].
    apply respects_print, F.
  - apply respects_bind; [ exact F | apply respects_sensors_lookup, F | intros s ].
    apply respects_bind; [ exact F | apply S | intros _ ].
    apply respects_bind; [ exact F | apply respects_logger_warning, F | intros _ ].
    apply respects_print, F.
  - apply respects_ret, F.
Qed.

Lemma tick_same_threads w : threads (final_world (tick w)) = threads w.
Proof.
  apply (respects_tick same_threads same_threads_frame same_threads_check_alerts).
Qed.

Lemma active_set_nth_dead i l :
  (List.length (filter is_live (set_nth i Finished l)) <=
   List.length (filter is_live l))%nat.
Proof.
  revert i. induction l as [ | x l IH ]; intros [ | i ];
    cbn [set_nth filter is_live List.length]; try lia.
  - destruct (is_live x); cbn [List.length]; lia.
  - specialize (IH i). destruct (is_live x); cbn [List.length]; lia.
Qed.

Lemma active_set_nth_loop i l :
  nth_error l i = Some Created ->
  List.length (filter is_live (set_nth i InLoop l)) =
  List.length (filter is_live l).
Proof.
  revert i. induction l as [ | x l IH ]; intros [ | i ] H;
    cbn [nth_error set_nth filter] in *; try discriminate.
  - injection H as ->. reflexivity.
  - destruct (is_live x); cbn [List.length]; rewrite (IH i H); reflexivity.
Qed.

Lemma thread_turn_active i w :
  (active_workers (final_world (thread_turn i w)) <= active_workers w)%nat.
Proof.
  unfold thread_turn, bind, get_world. cbv beta iota.
  destruct (nth_error (threads w) i) as [ [ | | ] | ] eqn:N; cbn [final_world].
  - unfold active_workers. cbn. rewrite (active_set_nth_loop _ _ N). lia.
  - destruct (is_running (self w)).
    + unfold try_except. pose proof (tick_same_threads w) as T.
      destruct (tick w) as [ [] w' | e w' ]; cbn [final_world] in *;
        unfold active_workers; cbn; rewrite T;
        [ lia | apply active_set_nth_dead ].
    + unfold active_workers. cbn. apply active_set_nth_dead.
  - apply Nat.le_refl.
  - apply Nat.le_refl.
Qed.

Lemma start_monitoring_eq w :
  start_monitoring w =
    Ok tt (with_log (fun l => l ++ [ INFO (Text "Monitoring thread started") ])
             (with_threads (fun ts => ts ++ [ Created ])
                (with_self (set_is_running true) w))).
Proof. reflexivity. Qed.

Lemma stop_monitoring_eq w :
  stop_monitoring w =
    Ok tt (with_log (fun l => l ++ [ INFO (Text "Monitoring system stopped") ])
             (with_self (set_is_running false) w)).
Proof. reflexivity. Qed.

Lemma start_monitoring_active w :
  active_workers (final_world (start_monitoring w)) = S (active_workers w).
Proof.
  rewrite start_monitoring_eq. unfold active_workers. cbn.
  rewrite filter_app, length_app. cbn. lia.
Qed.

Lemma run_events_active evs w :
  (active_workers (final_world (run_events evs w)) <=
   active_workers w + count_starts evs)%nat.
Proof.
  revert w. induction evs as [ | ev evs IH ]; intros w.
  - change (active_workers w <= active_workers w + 0)%nat. lia.
  - unfold run_events. cbn [for_each]. unfold bind.
    assert (S : exists w', step ev w = Ok tt w').
    { destruct ev as [ | | i ]; cbn [step].
      - eexists. apply start_monitoring_eq.
      - eexists. apply stop_monitoring_eq.
      - unfold thread_turn, bind, get_world. cbv beta iota.
        destruct (nth_error (threads w) i) as [ [ | | ] | ];
          try (eexists; reflexivity).
        destruct (is_running (self w)); [ | eexists; reflexivity ].
        unfold try_except. destruct (tick w) as [ [] w' | e w' ];
          eexists; reflexivity. }
    destruct S as (w' & S). rewrite S.
    specialize (IH w'). fold (run_events evs) .
    assert (B : (active_workers w' <= active_workers w +
                 count_starts [ ev ])%nat).
    { replace w' with (final_world (step ev w)) by (rewrite S; reflexivity).
      destruct ev as [ | | i ]; cbn [step].
      - rewrite start_monitoring_active.
        change (count_starts [ CallStart ]) with 1%nat. lia.
      - change (active_workers w <= active_workers w + 0)%nat. lia.
      - pose proof (thread_turn_active i w).
        change (count_starts [ Turn i ]) with 0%nat. lia. }
    unfold count_starts in *. cbn [filter] in *.
    destruct ev; cbn [List.length] in *; lia.
Qed.

(** C4, as the code has it. [start_monitoring] never looks at the state: it
    returns normally, leaves [is_running] set and adds one worker to those
    already active, also when the monitor is already running; and whatever
    the calls and the scheduling, the number of active workers never exceeds
    the number of workers active at the beginning plus the number of calls
    to [start_monitoring]. *)
Theorem start_monitoring_adds_worker w :
  (exists w',
     start_monitoring w = Ok tt w' /\
     is_running (self w') = true /\
     active_workers w' = S (active_workers w)) /\
  (forall evs,
     (active_workers (final_world (run_events evs w)) <=
      active_workers w + count_starts evs)%nat).
Proof.
  split.
  - eexists. split; [ apply start_monitoring_eq | ].
    split; [ reflexivity | ].
    pose proof (start_monitoring_active w) as A.
    rewrite start_monitoring_eq in A. exact A.
  - intros evs. apply run_events_active.
Qed.

(** C4, as stated, fails: after [start_monitoring] has been called and its
    thread has entered the loop, the monitor is running with one active
    worker; a second call makes them two, and both go on to write readings
    (ten rows for five sensors once each has made one pass). *)
Lemma second_start_second_worker :
  let w1 := final_world (run_events [ CallStart; Turn 0 ] demo_world) in
  let w2 := final_world (run_events [ CallStart; Turn 1; Turn 0; Turn 1 ] w1) in
  is_running (self w1) = true /\
  active_workers w1 = 1%nat /\
  active_workers (final_world (start_monitoring w1)) = 2%nat /\
  threads w2 = [ InLoop; InLoop ] /\
  List.length (temperature_readings (db w2)) = 10%nat /\
  ~ (forall evs,
       (active_workers (final_world (run_events evs demo_world)) <= 1)%nat).
Proof.
  cbv zeta.
  split; [ reflexivity | ].
  split; [ reflexivity | ].
  split; [ reflexivity | ].
  split; [ vm_compute; reflexivity | ].
  split; [ vm_compute; reflexivity | ].
  intros H. specialize (H [ CallStart; CallStart ]).
  vm_compute in H. lia.
Qed.

(** ** Storage failures *)

Lemma for_each_raises {A} (before after : list A) x body w w1 e w2 :
  for_each before body w = Ok tt w1 ->
  body x w1 = Raise e w2 ->
  for_each (before ++ x :: after) body w = Raise e w2.
Proof.
  revert w. induction before as [ | y before IH ]; intros w B X.
  - injection B as <-. cbn [app for_each]. unfold bind. rewrite X. reflexivity.
  - cbn [app for_each] in *. unfold bind in *.
    destruct (body y w) as [ [] w' | e' w' ]; [ | discriminate ].
    apply IH; assumption.
Qed.

(** A failed [store_reading] leaves the monitor, the file, the log and the
    threads as they were. *)
Lemma store_reading_raises sensor_id t w e w' :
  store_reading sensor_id t w = Raise e w' ->
  self w' = self w /\ db w' = db w /\ log w' = log w /\ threads w' = threads w.
Proof.
  unfold store_reading, sqlite3_connect, cursor_execute, conn_commit,
    db_operation, sensors_lookup, bind, get_world, modify.
  destruct (io_fail w (io_pos w)); cbn.
  { intros H. injection H as _ <-. auto. }
  destruct (Dict.get (sensors (self w)) sensor_id); cbn.
  2: { intros H. injection H as _ <-. auto. }
  destruct (io_fail w (S (io_pos w))); cbn.
  { intros H. injection H as _ <-. auto. }
  destruct (io_fail w (S (S (io_pos w)))); cbn.
  { intros H. injection H as _ <-. auto. }
  discriminate.
Qed.

Lemma nth_error_set_nth {A} i (x y : A) l :
  nth_error l i = Some y -> nth_error (set_nth i x l) i = Some x.
Proof.
  revert i. induction l as [ | z l IH ]; intros [ | i ] H;
    cbn [nth_error set_nth] in *; try discriminate; auto.
Qed.

Lemma finished_thread_idle i w n :
  nth_error (threads w) i = Some Finished ->
  run_events (repeat (Turn i) n) w = Ok tt w.
Proof.
  intros F. induction n as [ | n IH ]; [ reflexivity | ].
  unfold run_events in *. cbn [repeat for_each step]. unfold bind at 1.
  assert (E : thread_turn i w = Ok tt w).
  { unfold thread_turn, bind, get_world. cbv beta iota. rewrite F. reflexivity. }
  rewrite E. exact IH.
Qed.

(** C3, as stated, fails. In the world after start-up in which a single
    database operation fails, the one that opens the connection for the
    reading of [sensor_002], the worker has entered the loop and the monitor
    is running; its pass stores the reading of [sensor_001] and then ends
    with [StorageError]: no reading is stored for the three sensors after
    [sensor_002], nothing is added to the log, the thread is finished
    although [is_running] is still set, and further turns store nothing
    more, although the disk is healthy again. *)
Lemma storage_failure_stops_monitoring :
  let w := final_world (run_events [ CallStart; Turn 0 ] failing_world) in
  let w' := final_world (run_events [ Turn 0; Turn 0; Turn 0 ] w) in
  is_running (self w) = true /\
  threads w = [ InLoop ] /\
  map fst (filter (fun '(n, _) => io_fail w n)
             (combine (seq 0 100) (seq 0 100))) = [ 7%nat ] /\
  raised (tick w) = Some StorageError /\
  map r_sensor_id (temperature_readings (db (final_world (tick w)))) =
    [ "sensor_001" ] /\
  log (final_world (tick w)) = log w /\
  threads w' = [ Finished ] /\
  is_running (self w') = true /\
  map r_sensor_id (temperature_readings (db w')) = [ "sensor_001" ].
Proof.
  cbv zeta.
  split; [ vm_compute; reflexivity | ].
  split; [ vm_compute; reflexivity | ].
  split; [ vm_compute; reflexivity | ].
  split; [ vm_compute; reflexivity | ].
  split; [ vm_compute; reflexivity | ].
  split; [ vm_compute; reflexivity | ].
  split; [ vm_compute; reflexivity | ].
  split; vm_compute; reflexivity.
Qed.

(** ** Stopping *)

(** C8. Two calls of [stop_monitoring] in a row both return normally; after
    the first and after the second the monitor is stopped, and the second
    changes nothing but the log, to which it adds its line; neither call
    writes to the file, draws a number, touches the disk or creates a
    thread; and once stopped no pass is made: a loop that tests the flag
    exits at once and a scheduled thread leaves the file as it is. *)
Theorem stop_monitoring_idempotent w :
  exists w1 w2,
    stop_monitoring w = Ok tt w1 /\
    stop_monitoring w1 = Ok tt w2 /\
    is_running (self w1) = false /\
    is_running (self w2) = false /\
    self w2 = self w1 /\
    db w2 = db w /\
    threads w2 = threads w /\
    rng_pos w2 = rng_pos w /\
    io_pos w2 = io_pos w /\
    clock w2 = clock w /\
    log w2 = log w1 ++ [ INFO (Text "Monitoring system stopped") ] /\
    (forall passes, while_is_running (S passes) w2 = Ok Exited w2) /\
    (forall i, db (final_world (thread_turn i w2)) = db w /\
               rng_pos (final_world (thread_turn i w2)) = rng_pos w).
Proof.
  eexists. eexists.
  split; [ apply stop_monitoring_eq | ].
  split; [ apply stop_monitoring_eq | ].
  do 9 (split; [ reflexivity | ]).
  split; [ intros passes; reflexivity | ].
  intros i. unfold thread_turn, bind, get_world. cbv beta iota.
  destruct (nth_error _ i) as [ [ | | ] | ]; split; reflexivity.
Qed.

(** ** The active-alerts query *)

Lemma insert_desc_perm a l : Permutation (insert_desc a l) (a :: l).
Proof.
  induction l as [ | b l IH ]; cbn [insert_desc].
  - apply Permutation_refl.
  - destruct (a_timestamp b <=? a_timestamp a)%Z.
    + apply Permutation_refl.
    + eapply perm_trans; [ apply perm_skip, IH | apply perm_swap ].
Qed.

Lemma order_by_timestamp_desc_perm l :
  Permutation (order_by_timestamp_desc l) l.
Proof.
  induction l as [ | a l IH ]; cbn [order_by_timestamp_desc fold_right].
  - apply perm_nil.
  - eapply perm_trans; [ apply insert_desc_perm | apply perm_skip, IH ].
Qed.

Lemma insert_desc_sorted a l :
  Sorted rows_newer_first l -> Sorted rows_newer_first (insert_desc a l).
Proof.
  induction l as [ | b l IH ]; intros S; cbn [insert_desc].
  - repeat constructor.
  - destruct (Z.leb_spec (a_timestamp b) (a_timestamp a)) as [ Le | Gt ].
    + constructor; [ exact S | constructor; exact Le ].
    + inversion S as [ | ? ? S' Hd ]; subst.
      constructor; [ apply IH, S' | ].
      destruct l as [ | c l ]; cbn [insert_desc].
      * constructor. unfold rows_newer_first. lia.
      * destruct (a_timestamp c <=? a_timestamp a)%Z.
        -- constructor. unfold rows_newer_first. lia.
        -- inversion Hd; subst. constructor. assumption.
Qed.

Lemma order_by_timestamp_desc_sorted l :
  StronglySorted rows_newer_first (order_by_timestamp_desc l).
Proof.
  apply Sorted_StronglySorted.
  - intros x y z. unfold rows_newer_first. lia.
  - induction l as [ | a l IH ]; cbn [order_by_timestamp_desc fold_right].
    + constructor.
    + apply insert_desc_sorted, IH.
Qed.

Lemma selected_columns_sorted l :
  StronglySorted rows_newer_first l ->
  StronglySorted newer_first (map selected_columns l).
Proof.
  induction 1 as [ | a l S IH F ]; cbn [map]; constructor.
  - exact IH.
  - apply Forall_map. exact F.
Qed.

(** C6. The active-alerts query returns, up to order, exactly one record
    for each row of [alerts] whose resolved flag is false, each as often as
    the row occurs, and the record holds the sensor id, the alert type, the
    temperature and the timestamp of its row; the result is in descending
    order of timestamp; every returned record comes from a row with resolved
    false, whose four columns it holds, and every such row is returned; no
    fetched row has resolved true. *)
Theorem get_active_alerts_unresolved_newest_first d :
  Permutation (get_active_alerts d)
    (map (fun row =>
            {| j_sensor_id := a_sensor_id row;
               j_alert_type := a_alert_type row;
               j_temperature := a_temperature row;
               j_timestamp := a_timestamp row |})
         (filter (fun a => negb (a_resolved a)) (alerts d))) /\
  StronglySorted newer_first (get_active_alerts d) /\
  (forall x, In x (get_active_alerts d) ->
     exists row,
       In row (alerts d) /\ a_resolved row = false /\ x = selected_columns row /\
       j_sensor_id x = a_sensor_id row /\
       j_alert_type x = a_alert_type row /\
       j_temperature x = a_temperature row /\
       j_timestamp x = a_timestamp row) /\
  (forall row, In row (alerts d) -> a_resolved row = false ->
     In (selected_columns row) (get_active_alerts d) /\
     exists x,
       In x (get_active_alerts d) /\
       j_sensor_id x = a_sensor_id row /\
       j_alert_type x = a_alert_type row /\
       j_temperature x = a_temperature row /\
       j_timestamp x = a_timestamp row) /\
  Forall (fun row => a_resolved row = false) (select_active_alerts d).
Proof.
  unfold get_active_alerts, select_active_alerts.
  set (unresolved := filter (fun a => negb (a_resolved a)) (alerts d)).
  pose proof (order_by_timestamp_desc_perm unresolved) as P.
  assert (U : forall row, In row (order_by_timestamp_desc unresolved) <->
                          In row (alerts d) /\ a_resolved row = false).
  { intros row. split.
    - intros I. apply (Permutation_in _ P) in I.
      apply filter_In in I. destruct I as [ I R ].
      split; [ exact I | ]. destruct (a_resolved row); [ discriminate | reflexivity ].
    - intros [ I R ]. apply (Permutation_in _ (Permutation_sym P)).
      apply filter_In. split; [ exact I | ]. rewrite R. reflexivity. }
  split; [ exact (Permutation_map selected_columns P) | ].
  split; [ apply selected_columns_sorted, order_by_timestamp_desc_sorted | ].
  split; [ | split ].
  - intros x I. apply in_map_iff in I. destruct I as (row & E & I).
    apply U in I. exists row. split; [ apply I | split; [ apply I | ] ].
    subst x. repeat split.
  - intros row I R.
    assert (J : In (selected_columns row)
                  (map selected_columns (order_by_timestamp_desc unresolved))).
    { apply in_map. apply U. split; assumption. }
    split; [ exact J | ].
    exists (selected_columns row). split; [ exact J | ]. repeat split.
  - apply Forall_forall. intros row I. apply U in I. apply I.
Qed.

(** * Further properties of the monitor *)

(** ** Start-up and the disk *)

(** X1. [setup_database] never raises and never changes the monitor or the
    rows of the file. When its four database operations succeed it logs the
    success line and prints nothing; when one of them fails it prints the
    error line and does not log the success. *)
Theorem setup_database_swallows_failures w :
  exists w',
    setup_database w = Ok tt w' /\
    self w' = self w /\ db w' = db w /\
    (storage_healthy w 4 ->
     log w' = log w ++
       [ INFO (Text "Database warehouse_temperature.db created successfully with tables") ]) /\
    (~ storage_healthy w 4 ->
     log w' = log w ++ [ PRINT (Text "Error creating database") ]).
Proof.
  assert (H4 : storage_healthy w 4 <->
               io_fail w (io_pos w) = false /\
               io_fail w (S (io_pos w)) = false /\
               io_fail w (S (S (io_pos w))) = false /\
               io_fail w (S (S (S (io_pos w)))) = false).
  { split.
    - intros H.
      pose proof (H 0%nat ltac:(lia)) as H0.
      pose proof (H 1%nat ltac:(lia)) as H1.
      pose proof (H 2%nat ltac:(lia)) as H2.
      pose proof (H 3%nat ltac:(lia)) as H3.
      rewrite Nat.add_0_r in H0.
      replace (io_pos w + 1)%nat with (S (io_pos w)) in H1 by lia.
      replace (io_pos w + 2)%nat with (S (S (io_pos w))) in H2 by lia.
      replace (io_pos w + 3)%nat with (S (S (S (io_pos w)))) in H3 by lia.
      auto.
    - intros (H0 & H1 & H2 & H3) k Hk.
      destruct k as [ | [ | [ | [ | k ] ] ] ]; try lia.
      + rewrite Nat.add_0_r. exact H0.
      + replace (io_pos w + 1)%nat with (S (io_pos w)) by lia. exact H1.
      + replace (io_pos w + 2)%nat with (S (S (io_pos w))) by lia. exact H2.
      + replace (io_pos w + 3)%nat with (S (S (S (io_pos w)))) by lia. exact H3. }
  unfold setup_database, try_except, bind, sqlite3_connect, cursor_execute,
    conn_commit, db_operation, bind, logger_info, print, modify.
  cbn.
  destruct (io_fail w (io_pos w)) eqn:E0; cbn;
    [ | destruct (io_fail w (S (io_pos w))) eqn:E1; cbn;
        [ | destruct (io_fail w (S (S (io_pos w)))) eqn:E2; cbn;
            [ | destruct (io_fail w (S (S (S (io_pos w))))) eqn:E3; cbn ] ] ];
    eexists; (split; [ reflexivity | ]); cbn;
    (split; [ reflexivity | ]); (split; [ destruct w as [ ? [ ] ]; reflexivity | ]);
    rewrite H4; split; intros H;
    try reflexivity;
    try (exfalso; destruct H as (H0 & H1 & H2 & H3); congruence);
    try (exfalso; apply H; auto).
Qed.

Lemma setup_database_swallows_failures_witness :
  storage_healthy demo_boot 4 /\
  ~ storage_healthy (boot empty_db steady_draws (fun n => (n =? 2)%nat) 1000) 4 /\
  log (final_world (setup_database demo_boot)) =
    [ INFO (Text "Database warehouse_temperature.db created successfully with tables") ] /\
  log (final_world
         (setup_database
            (boot empty_db steady_draws (fun n => (n =? 2)%nat) 1000))) =
    [ PRINT (Text "Error creating database") ].
Proof.
  assert (H : storage_healthy demo_boot 4) by (intros k _; reflexivity).
  assert (F : ~ storage_healthy
                (boot empty_db steady_draws (fun n => (n =? 2)%nat) 1000) 4).
  { intros G. specialize (G 2%nat ltac:(lia)). discriminate G. }
  split; [ exact H | ].
  split; [ exact F | ].
  split.
  - destruct (setup_database_swallows_failures demo_boot)
      as (w' & E & _ & _ & L & _).
    rewrite E. cbn [final_world]. apply (L H).
  - destruct (setup_database_swallows_failures
                (boot empty_db steady_draws (fun n => (n =? 2)%nat) 1000))
      as (w' & E & _ & _ & _ & L).
    rewrite E. cbn [final_world]. apply (L F).
Defined.

(** ** Writes are all or nothing *)

Lemma storage_healthy_le w n m :
  (m <= n)%nat -> storage_healthy w n -> storage_healthy w m.
Proof. intros L H k Hk. apply H. lia. Qed.

(** X2. [store_reading] either returns, and then it has appended exactly
    one row, which carries the sensor id, the temperature, the location the
    registry holds for the sensor and the current time, and has changed
    nothing else of the file or the monitor; or it raises, and then the file
    and the monitor are as before. With a disk that accepts three operations
    it returns when the sensor is registered and raises [KeyError] when it
    is not. *)
Theorem store_reading_all_or_nothing sensor_id t w :
  (forall w',
     store_reading sensor_id t w = Ok tt w' ->
     exists s row,
       Dict.get (sensors (self w)) sensor_id = Some s /\
       temperature_readings (db w') = temperature_readings (db w) ++ [ row ] /\
       r_sensor_id row = sensor_id /\ r_temperature row = t /\
       r_location row = location s /\ r_timestamp row = clock w /\
       alerts (db w') = alerts (db w) /\ self w' = self w) /\
  (forall e w',
     store_reading sensor_id t w = Raise e w' ->
     db w' = db w /\ self w' = self w) /\
  (storage_healthy w 3 ->
   (Dict.get (sensors (self w)) sensor_id <> None ->
    raised (store_reading sensor_id t w) = None) /\
   (Dict.get (sensors (self w)) sensor_id = None ->
    raised (store_reading sensor_id t w) = Some (KeyError sensor_id))).
Proof.
  split; [ | split ].
  - unfold store_reading, sqlite3_connect, cursor_execute, conn_commit,
      db_operation, sensors_lookup, bind, get_world, modify.
    destruct (io_fail w (io_pos w)); cbn; [ discriminate | ].
    destruct (Dict.get (sensors (self w)) sensor_id) as [ s | ]; cbn;
      [ | discriminate ].
    destruct (io_fail w (S (io_pos w))); cbn; [ discriminate | ].
    destruct (io_fail w (S (S (io_pos w)))); cbn; [ discriminate | ].
    intros w' H. injection H as <-. cbn.
    exists s. eexists. repeat (split; [ reflexivity | ]). reflexivity.
  - intros e w' H. destruct (store_reading_raises _ _ _ _ _ H) as (S & D & _).
    split; assumption.
  - intros H. destruct (storage_healthy_3 w H) as (H0 & H1 & H2).
    unfold store_reading, sqlite3_connect, cursor_execute, conn_commit,
      db_operation, sensors_lookup, bind, get_world, modify.
    rewrite H0. cbn.
    destruct (Dict.get (sensors (self w)) sensor_id) as [ s | ]; cbn.
    + rewrite H1. cbn. rewrite H2. cbn. split; [ reflexivity | congruence ].
    + split; [ congruence | reflexivity ].
Qed.

Lemma store_reading_all_or_nothing_witness :
  storage_healthy demo_world 3 /\
  Dict.get (sensors (self demo_world)) "sensor_003" <> None /\
  Dict.get (sensors (self demo_world)) "sensor_999" = None /\
  raised (store_reading "sensor_003" 21 demo_world) = None /\
  raised (store_reading "sensor_999" 21 demo_world) = Some (KeyError "sensor_999").
Proof.
  split; [ exact (demo_world_healthy 3) | ].
  split; [ discriminate | ].
  split; [ reflexivity | ].
  split.
  - apply (store_reading_all_or_nothing "sensor_003" 21 demo_world).
    + exact (demo_world_healthy 3).
    + discriminate.
  - apply (store_reading_all_or_nothing "sensor_999" 21 demo_world).
    + exact (demo_world_healthy 3).
    + reflexivity.
Defined.

(** X3. [store_alert] does not consult the registry or the thresholds: it
    either returns, having appended exactly one row with the given sensor
    id, kind and temperature, the current time and [resolved] false, or it
    raises [StorageError] and leaves the file as it was; it returns exactly
    when the next three database operations succeed. *)
Theorem store_alert_all_or_nothing sensor_id alert_type t w :
  (storage_healthy w 3 ->
   exists w' row,
     store_alert sensor_id alert_type t w = Ok tt w' /\
     alerts (db w') = alerts (db w) ++ [ row ] /\
     a_sensor_id row = sensor_id /\ a_alert_type row = alert_type /\
     a_temperature row = t /\ a_timestamp row = clock w /\
     a_resolved row = false /\
     temperature_readings (db w') = temperature_readings (db w) /\
     self w' = self w) /\
  (~ storage_healthy w 3 ->
   exists w',
     store_alert sensor_id alert_type t w = Raise StorageError w' /\
     db w' = db w /\ self w' = self w /\ log w' = log w).
Proof.
  split.
  - intros H. rewrite (store_alert_healthy _ _ _ _ H).
    eexists. eexists. split; [ reflexivity | ]. cbn.
    repeat (split; [ reflexivity | ]). reflexivity.
  - intros H.
    unfold store_alert, sqlite3_connect, cursor_execute, conn_commit,
      db_operation, bind, get_world, modify.
    destruct (io_fail w (io_pos w)) eqn:E0; cbn;
      [ eexists; repeat split; reflexivity | ].
    destruct (io_fail w (S (io_pos w))) eqn:E1; cbn;
      [ eexists; repeat split; reflexivity | ].
    destruct (io_fail w (S (S (io_pos w)))) eqn:E2; cbn;
      [ eexists; repeat split; reflexivity | ].
    exfalso. apply H. intros k Hk.
    destruct k as [ | [ | [ | k ] ] ]; try lia.
    + rewrite Nat.add_0_r. exact E0.
    + replace (io_pos w + 1)%nat with (S (io_pos w)) by lia. exact E1.
    + replace (io_pos w + 2)%nat with (S (S (io_pos w))) by lia. exact E2.
Qed.

Lemma store_alert_all_or_nothing_witness :
  storage_healthy demo_world 3 /\
  ~ storage_healthy (boot empty_db steady_draws (fun n => (n =? 1)%nat) 1000) 3 /\
  (exists w', store_alert "sensor_001" "LOW_TEMPERATURE" 1 demo_world = Ok tt w') /\
  (exists w',
     store_alert "sensor_001" "LOW_TEMPERATURE" 1
       (boot empty_db steady_draws (fun n => (n =? 1)%nat) 1000) =
     Raise StorageError w').
Proof.
  split; [ exact (demo_world_healthy 3) | ].
  split; [ intros G; specialize (G 1%nat ltac:(lia)); discriminate G | ].
  split.
  - destruct (proj1 (store_alert_all_or_nothing "sensor_001" "LOW_TEMPERATURE"
                       1 demo_world) (demo_world_healthy 3))
      as (w' & row & E & _).
    exists w'. exact E.
  - destruct (proj2 (store_alert_all_or_nothing "sensor_001" "LOW_TEMPERATURE"
                       1 (boot empty_db steady_draws (fun n => (n =? 1)%nat) 1000)))
      as (w' & E & _).
    + intros G. specialize (G 1%nat ltac:(lia)). discriminate G.
    + exists w'. exact E.
Defined.

(** ** Alert evaluation for a sensor the registry does not hold *)

(** X4. Called for a sensor id that is not registered, with the thresholds
    of [__init__], [check_alerts] returns without any effect when the
    temperature is within [2, 25], and raises [KeyError] when it is above 25
    or below 2: the message is built from the registry before the alert is
    stored, so no alert is written and the disk is not touched. *)
Theorem check_alerts_unregistered sensor_id t w :
  thresholds_set w ->
  Dict.get (sensors (self w)) sensor_id = None ->
  (2 <= t /\ t <= 25 -> check_alerts sensor_id t w = Ok tt w) /\
  (25 < t \/ t < 2 -> check_alerts sensor_id t w = Raise (KeyError sensor_id) w).
Proof.
  intros [ TH TL ] K.
  unfold check_alerts, bind, get_world, sensors_lookup. cbv beta iota.
  rewrite TH, TL.
  split.
  - intros [ L H ].
    destruct (Qgtb t 25) eqn:G; [ apply Qgtb_gt in G; lra | ].
    destruct (Qltb t 2) eqn:B; [ apply Qltb_lt in B; lra | ].
    reflexivity.
  - intros [ H | L ].
    + apply Qgtb_gt in H. rewrite H, K. reflexivity.
    + destruct (Qgtb t 25) eqn:G; [ rewrite K; reflexivity | ].
      apply Qltb_lt in L. rewrite L, K. reflexivity.
Qed.

Lemma check_alerts_unregistered_witness :
  thresholds_set demo_world /\
  Dict.get (sensors (self demo_world)) "sensor_999" = None /\
  check_alerts "sensor_999" 20 demo_world = Ok tt demo_world /\
  check_alerts "sensor_999" 30 demo_world = Raise (KeyError "sensor_999") demo_world.
Proof.
  split; [ exact demo_world_thresholds | ].
  split; [ reflexivity | ].
  split.
  - apply (check_alerts_unregistered "sensor_999" 20 demo_world
             demo_world_thresholds eq_refl).
    split; discriminate.
  - apply (check_alerts_unregistered "sensor_999" 30 demo_world
             demo_world_thresholds eq_refl).
    left. reflexivity.
Defined.

(** ** What a run never does *)

Section Runs.

Variable R : World -> World -> Prop.
Hypothesis R_refl : forall w, R w w.
Hypothesis R_trans : forall w1 w2 w3, R w1 w2 -> R w2 w3 -> R w1 w3.
Hypothesis R_process : forall sensor_id, respects R (process_sensor sensor_id).
Hypothesis R_clock : forall f w, R w (with_clock f w).
Hypothesis R_log : forall f w, R w (with_log f w).
Hypothesis R_threads : forall f w, R w (with_threads f w).

Lemma run_bind {A B} (m : M A) (k : A -> M B) :
  respects R m -> (forall a, respects R (k a)) -> respects R (bind m k).
Proof.
  intros Hm Hk w. specialize (Hm w). unfold bind.
  destruct (m w) as [ a w' | e w' ]; cbn [final_world] in *.
  - apply (R_trans _ w'); [ exact Hm | apply Hk ].
  - exact Hm.
Qed.

Lemma run_for_each {A} (xs : list A) (body : A -> M unit) :
  (forall x, respects R (body x)) -> respects R (for_each xs body).
Proof.
  intros Hb. induction xs as [ | x xs IH ]; cbn [for_each].
  - intros w. apply R_refl.
  - apply run_bind; [ apply Hb | intros _; exact IH ].
Qed.

Lemma run_tick : respects R tick.
Proof.
  unfold tick. apply run_bind; [ intros w; apply R_refl | intros w0 ].
  apply run_bind; [ apply run_for_each, R_process | intros _ ].
  intros w. apply R_clock.
Qed.

Lemma run_thread_turn i : respects R (thread_turn i).
Proof.
  unfold thread_turn. apply run_bind; [ intros w; apply R_refl | intros w0 ].
  destruct (nth_error _ _) as [ [ | | ] | ].
  - apply run_bind; [ intros w; apply R_log | intros _ ].
    intros w. apply R_threads.
  - destruct (is_running _).
    + intros w. unfold try_except. pose proof (run_tick w) as T.
      destruct (tick w) as [ [] w' | e w' ]; cbn [final_world] in *.
      * exact T.
      * apply (R_trans _ w'); [ exact T | apply R_threads ].
    + intros w. apply R_threads.
  - intros w. apply R_refl.
  - intros w. apply R_refl.
Qed.

(** When, besides, setting the running flag is a change [R] allows. *)
Hypothesis R_flag : forall b w, R w (with_self (set_is_running b) w).

Lemma run_run_events evs : respects R (run_events evs).
Proof.
  apply run_for_each. intros [ | | i ]; cbn [step].
  - intros w. rewrite start_monitoring_eq. cbn [final_world].
    eapply R_trans; [ apply R_flag | ].
    eapply R_trans; [ apply R_threads | apply R_log ].
  - intros w. rewrite stop_monitoring_eq. cbn [final_world].
    eapply R_trans; [ apply R_flag | apply R_log ].
  - apply run_thread_turn.
Qed.

End Runs.

(** [check_alerts] keeps a relation of the loop that also holds of the
    insertion of an alert. *)
Lemma respects_check_alerts R sensor_id t :
  frame R ->
  (forall kind now w, R w (with_db (insert_alert sensor_id kind t now) w)) ->
  respects R (check_alerts sensor_id t).
Proof.
  intros F I.
  assert (S : forall kind, respects R (store_alert sensor_id kind t)).
  { intros kind. unfold store_alert, sqlite3_connect, cursor_execute, conn_commit.
    apply respects_bind; [ exact F | apply respects_db_operation, F | intros _ ].
    apply respects_bind; [ exact F | apply respects_db_operation, F | intros _ ].
    apply respects_bind; [ exact F | apply respects_get_world, F | intros w0 ].
    apply respects_bind; [ exact F | apply respects_db_operation, F | intros _ ].
    intros w. apply I. }
  unfold check_alerts.
  apply respects_bind; [ exact F | apply respects_get_world, F | intros w0 ].
  destruct (Qgtb _ _); [ | destruct (Qltb _ _) ].
  - apply respects_bind; [ exact F | apply respects_sensors_lookup, F | intros s ].
    apply respects_bind; [ exact F | apply S | intros _ ].
    apply respects_bind; [ exact F | apply respects_logger_warning, F | intros _ ].
    apply respects_print, F.
  - apply respects_bind; [ exact F | apply respects_sensors_lookup, F | intros s ].
    apply respects_bind; [ exact F | apply S | intros _ ].
    apply respects_bind; [ exact F | apply respects_logger_warning, F | intros _ ].
    apply respects_print, F.
  - apply respects_ret, F.
Qed.

Lemma append_only_refl w : append_only w w.
Proof. split; exists []; rewrite app_nil_r; reflexivity. Qed.

Lemma append_only_trans w1 w2 w3 :
  append_only w1 w2 -> append_only w2 w3 -> append_only w1 w3.
Proof.
  intros [ (r1 & R1) (a1 & A1) ] [ (r2 & R2) (a2 & A2) ]. split.
  - exists (r1 ++ r2). rewrite R2, R1, app_assoc. reflexivity.
  - exists (a1 ++ a2). rewrite A2, A1, app_assoc. reflexivity.
Qed.

Lemma append_only_same_db w w' : db w' = db w -> append_only w w'.
Proof.
  intros E. unfold append_only. rewrite E.
  split; exists []; rewrite app_nil_r; reflexivity.
Qed.

Lemma append_only_frame : frame append_only.
Proof.
  constructor; intros; try (apply append_only_same_db; reflexivity).
  - eapply append_only_trans; eassumption.
  - split; [ eexists; reflexivity | exists []; cbn; rewrite app_nil_r; reflexivity ].
Qed.

Lemma append_only_process_sensor sensor_id :
  respects append_only (process_sensor sensor_id).
Proof.
  apply respects_process_sensor; [ exact append_only_frame | ].
  intros sid t. apply respects_check_alerts; [ exact append_only_frame | ].
  intros kind now w.
  split; [ exists []; cbn; rewrite app_nil_r; reflexivity | eexists; reflexivity ].
Qed.

(** X5. Rows are only ever appended. [__init__] leaves the rows of an
    existing file as they are, and after it, whatever the calls to
    [start_monitoring] and [stop_monitoring], the scheduling of the threads
    and the failures of the disk, each table is the table before followed
    by further rows: no row is deleted, changed or reordered. *)
Theorem tables_append_only w0 evs :
  db (final_world (init w0)) = db w0 /\
  forall w, append_only w (final_world (run_events evs w)).
Proof.
  split.
  - destruct (init_returns w0) as (l & c & E). rewrite E. reflexivity.
  - apply run_run_events; intros;
      try (apply append_only_same_db; reflexivity).
    + eapply append_only_trans; eassumption.
    + apply append_only_process_sensor.
Qed.

Lemma same_settings_frame : frame same_settings.
Proof.
  constructor; unfold same_settings; intros; cbn; try tauto.
  destruct H as (? & ? & ?), H0 as (? & ? & ?).
  repeat split; congruence.
Qed.

Lemma same_settings_process_sensor sensor_id :
  respects same_settings (process_sensor sensor_id).
Proof.
  apply respects_process_sensor; [ exact same_settings_frame | ].
  intros sid t. apply respects_check_alerts; [ exact same_settings_frame | ].
  intros kind now w. unfold same_settings. cbn. tauto.
Qed.

(** X6. A turn of a monitoring thread never changes the running flag or the
    thresholds, whether its pass completes, raises or is not made at all: a
    worker that ends by an exception leaves [is_running] as it found it,
    and only [start_monitoring] and [stop_monitoring] assign the flag. *)
Theorem thread_turn_keeps_settings i w :
  is_running (self (final_world (thread_turn i w))) = is_running (self w) /\
  alert_threshold_high (self (final_world (thread_turn i w))) =
    alert_threshold_high (self w) /\
  alert_threshold_low (self (final_world (thread_turn i w))) =
    alert_threshold_low (self w).
Proof.
  apply (run_thread_turn same_settings); unfold same_settings; intros;
    cbn; try tauto.
  - destruct H as (? & ? & ?), H0 as (? & ? & ?). repeat split; congruence.
  - apply same_settings_process_sensor.
Qed.

(** ** The registry as a dictionary *)

Lemma dict_get_set_same {V} (d : Dict.dict V) k v :
  Dict.get (Dict.set d k v) k = Some v.
Proof.
  induction d as [ | [ k' v' ] d IH ]; cbn [Dict.set Dict.get].
  - rewrite String.eqb_refl. reflexivity.
  - destruct (String.eqb k k') eqn:E; cbn [Dict.get]; rewrite E; auto.
Qed.

Lemma dict_get_set_other {V} (d : Dict.dict V) k k' v :
  k' <> k -> Dict.get (Dict.set d k v) k' = Dict.get d k'.
Proof.
  intros N. induction d as [ | [ k0 v0 ] d IH ]; cbn [Dict.set Dict.get].
  - apply String.eqb_neq in N. rewrite N. reflexivity.
  - destruct (String.eqb k k0) eqn:E; cbn [Dict.get].
    + apply String.eqb_eq in E. subst k0.
      apply String.eqb_neq in N. rewrite N. reflexivity.
    + rewrite IH. reflexivity.
Qed.

Lemma dict_keys_set_present {V} (d : Dict.dict V) k v v0 :
  Dict.get d k = Some v0 -> Dict.keys (Dict.set d k v) = Dict.keys d.
Proof.
  unfold Dict.keys.
  induction d as [ | [ k' v' ] d IH ]; cbn [Dict.set Dict.get map fst];
    [ discriminate | ].
  destruct (String.eqb k k') eqn:E; cbn [map fst]; intros H.
  - reflexivity.
  - rewrite (IH H). reflexivity.
Qed.

Lemma dict_get_in_keys {V} (d : Dict.dict V) k :
  In k (Dict.keys d) -> exists v, Dict.get d k = Some v.
Proof.
  unfold Dict.keys.
  induction d as [ | [ k' v' ] d IH ]; cbn [Dict.get map fst In];
    [ contradiction | ].
  intros [ E | I ].
  - subst k'. rewrite String.eqb_refl. eauto.
  - destruct (String.eqb k k'); eauto.
Qed.

(** ** One sensor, one pass, on a disk that does not fail *)

Lemma never_fails_healthy w n : never_fails w -> storage_healthy w n.
Proof. intros H k _. apply H. Qed.

Lemma store_reading_healthy sensor_id s t w :
  storage_healthy w 3 ->
  Dict.get (sensors (self w)) sensor_id = Some s ->
  store_reading sensor_id t w =
    Ok tt (with_db (insert_reading sensor_id t (location s) (clock w))
             (with_io_pos (fun k => S (S (S k))) w)).
Proof.
  intros H K. destruct (storage_healthy_3 w H) as (H0 & H1 & H2).
  unfold store_reading, sqlite3_connect, cursor_execute, conn_commit,
    db_operation, sensors_lookup, bind, get_world, modify.
  rewrite H0. cbn. rewrite K. cbn. rewrite H1. cbn. rewrite H2. reflexivity.
Qed.

Lemma check_alerts_returns sensor_id s t w :
  storage_healthy w 3 ->
  Dict.get (sensors (self w)) sensor_id = Some s ->
  exists w', check_alerts sensor_id t w = Ok tt w' /\ check_alerts_frame w w'.
Proof.
  intros H K.
  unfold check_alerts, bind, get_world, sensors_lookup. cbv beta iota.
  destruct (Qgtb _ _); [ | destruct (Qltb _ _) ]; try rewrite K;
    try rewrite (store_alert_healthy _ _ _ _ H);
    eexists; (split; [ reflexivity | ]); repeat split; reflexivity.
Qed.

Lemma update_last_reading_registered sensor_id s t w :
  Dict.get (sensors (self w)) sensor_id = Some s ->
  update_last_reading sensor_id t w =
    Ok tt (with_self (set_sensors (fun d =>
             Dict.set d sensor_id
               {| location := location s;
                  current_temp := current_temp s;
                  last_reading :=
                    Some {| lr_temperature := t; lr_timestamp := clock w |};
                  is_active := is_active s |})) w).
Proof.
  intros K. unfold update_last_reading, bind, sensors_lookup, get_world.
  rewrite K. reflexivity.
Qed.

Lemma generate_returns sensor_id w :
  exists t f,
    generate_random_temperature sensor_id w = Ok t (with_rng_pos f w).
Proof.
  rewrite generate_random_temperature_eq. cbv zeta.
  destruct (Qltb _ _); [ destruct (Qltb _ _) | ]; eexists; eexists; reflexivity.
Qed.

(** The effect of the body of the loop for a registered sensor. *)
Lemma process_sensor_registered sensor_id s w :
  never_fails w ->
  Dict.get (sensors (self w)) sensor_id = Some s ->
  exists t w',
    process_sensor sensor_id w = Ok tt w' /\
    temperature_readings (db w') =
      temperature_readings (db w) ++
      [ {| r_id := next_id r_id (temperature_readings (db w));
           r_sensor_id := sensor_id;
           r_temperature := t;
           r_timestamp := clock w;
           r_location := location s |} ] /\
    sensors (self w') =
      Dict.set (sensors (self w)) sensor_id
        {| location := location s;
           current_temp := current_temp s;
           last_reading :=
             Some {| lr_temperature := t; lr_timestamp := clock w |};
           is_active := is_active s |} /\
    is_running (self w') = is_running (self w) /\
    never_fails w' /\ clock w' = clock w.
Proof.
  intros NF K.
  destruct (generate_returns sensor_id w) as (t & f & G).
  exists t.
  unfold process_sensor, bind. rewrite G.
  rewrite (store_reading_healthy sensor_id s t (with_rng_pos f w));
    [ | intros k _; apply NF | exact K ].
  match goal with
  | |- context [check_alerts sensor_id t ?w1] =>
      destruct (check_alerts_returns sensor_id s t w1)
        as (w2 & C & S2 & R2 & I2 & C2 & _);
        [ intros k _; apply NF | exact K | rewrite C ]
  end.
  assert (K2 : Dict.get (sensors (self w2)) sensor_id = Some s).
  { rewrite S2. exact K. }
  rewrite (update_last_reading_registered _ _ _ _ K2).
  eexists. split; [ reflexivity | ].
  cbn. rewrite R2, S2, C2. cbn.
  repeat split; try reflexivity.
  intros n. cbn. rewrite I2. cbn. apply NF.
Qed.

(** ** A whole pass on a disk that does not fail *)

Lemma pass_registered ks :
  forall w,
    never_fails w ->
    (forall k, In k ks -> In k (Dict.keys (sensors (self w)))) ->
    exists w' rows,
      for_each ks process_sensor w = Ok tt w' /\
      temperature_readings (db w') = temperature_readings (db w) ++ rows /\
      map r_sensor_id rows = ks /\
      Forall (fun r => r_timestamp r = clock w /\
                       location_of w (r_sensor_id r) = Some (r_location r)) rows /\
      Dict.keys (sensors (self w')) = Dict.keys (sensors (self w)) /\
      (forall k, location_of w' k = location_of w k) /\
      (forall k, ~ In k ks ->
         Dict.get (sensors (self w')) k = Dict.get (sensors (self w)) k) /\
      (forall k, In k ks ->
         exists r, In r rows /\ r_sensor_id r = k /\
           last_reading_of w' k =
             Some {| lr_temperature := r_temperature r;
                     lr_timestamp := clock w |}) /\
      is_running (self w') = is_running (self w) /\
      never_fails w' /\ clock w' = clock w.
Proof.
  induction ks as [ | k ks IH ]; intros w NF Reg.
  - exists w, []. cbn [for_each]. unfold ret. rewrite app_nil_r.
    repeat split; auto. intros k [].
  - destruct (dict_get_in_keys _ k (Reg k (or_introl eq_refl))) as (s & K).
    destruct (process_sensor_registered k s w NF K)
      as (t & w1 & P & R1 & S1 & Run1 & NF1 & C1).
    assert (Keys1 : Dict.keys (sensors (self w1)) = Dict.keys (sensors (self w))).
    { rewrite S1. apply (dict_keys_set_present _ _ _ _ K). }
    assert (Loc1 : forall k', location_of w1 k' = location_of w k').
    { intros k'. unfold location_of. rewrite S1.
      destruct (string_dec k' k) as [ -> | N ].
      - rewrite dict_get_set_same, K. reflexivity.
      - rewrite dict_get_set_other by exact N. reflexivity. }
    destruct (IH w1 NF1) as (w' & rows & F & R & Ids & Rows & Keys & Loc & Oth & Last & Run & NF' & C).
    { intros k' I. rewrite Keys1. apply Reg. right. exact I. }
    exists w'. eexists.
    split; [ cbn [for_each]; unfold bind; rewrite P; exact F | ].
    split; [ rewrite R, R1, <- app_assoc; reflexivity | ].
    split; [ cbn [map app r_sensor_id]; rewrite Ids; reflexivity | ].
    split.
    { cbn [app]. constructor.
      - cbn. split; [ reflexivity | ]. unfold location_of. rewrite K. reflexivity.
      - eapply Forall_impl; [ | exact Rows ]. cbn beta.
        intros r [ T L ]. rewrite C1 in T. rewrite Loc1 in L. auto. }
    split; [ congruence | ].
    split; [ intros k'; rewrite Loc; apply Loc1 | ].
    split.
    { intros k' N. rewrite Oth by (intros I; apply N; right; exact I).
      rewrite S1. apply dict_get_set_other. intros E. apply N. left. auto. }
    split.
    { intros k' I.
      destruct (in_dec string_dec k' ks) as [ I' | N ].
      - destruct (Last k' I') as (r & Ir & Er & Lr).
        exists r. split; [ cbn [app]; right; exact Ir | ].
        split; [ exact Er | ]. rewrite Lr, C1. reflexivity.
      - destruct I as [ <- | I ]; [ | contradiction ].
        eexists. split; [ cbn [app]; left; reflexivity | ].
        split; [ reflexivity | ].
        unfold last_reading_of. rewrite (Oth k N), S1, dict_get_set_same.
        reflexivity. }
    split; [ congruence | ].
    split; [ exact NF' | congruence ].
Qed.

Lemma readings_added_app w w' new :
  temperature_readings (db w') = temperature_readings (db w) ++ new ->
  readings_added w w' = new.
Proof.
  intros E. unfold readings_added. rewrite E.
  rewrite skipn_app, skipn_all, Nat.sub_diag. reflexivity.
Qed.

(** The facts about a pass that the loop needs. *)
Lemma tick_never_fails w :
  never_fails w ->
  exists w' rows,
    tick w = Ok tt w' /\
    temperature_readings (db w') = temperature_readings (db w) ++ rows /\
    map r_sensor_id rows = Dict.keys (sensors (self w)) /\
    Forall (fun r => r_timestamp r = clock w /\
                     location_of w (r_sensor_id r) = Some (r_location r)) rows /\
    (forall k, In k (Dict.keys (sensors (self w))) ->
       exists r, In r rows /\ r_sensor_id r = k /\
         last_reading_of w' k =
           Some {| lr_temperature := r_temperature r;
                   lr_timestamp := clock w |}) /\
    Dict.keys (sensors (self w')) = Dict.keys (sensors (self w)) /\
    is_running (self w') = is_running (self w) /\
    never_fails w' /\ clock w' = (clock w + 3)%Z.
Proof.
  intros NF.
  destruct (pass_registered (Dict.keys (sensors (self w))) w NF (fun k I => I))
    as (w' & rows & F & R & Ids & Rows & Keys & _ & _ & Last & Run & NF' & C).
  exists (with_clock (fun c => (c + 3)%Z) w'), rows.
  split.
  { unfold tick, bind, get_world. cbv beta iota. unfold bind in F.
    rewrite F. reflexivity. }
  cbn. rewrite C. repeat split; auto.
Qed.

(** X7. On a disk that does not fail, one pass of the loop returns
    normally and appends exactly one reading per registered sensor, in the
    order of registration; each of these rows carries the location the
    registry holds for its sensor; after the pass the last reading of every
    registered sensor holds the temperature of a row written for it in this
    pass; the set of registered sensors and the running flag are
    unchanged. *)
Theorem tick_one_reading_per_sensor w :
  never_fails w ->
  exists w',
    tick w = Ok tt w' /\
    map r_sensor_id (readings_added w w') = Dict.keys (sensors (self w)) /\
    Forall (fun r => location_of w (r_sensor_id r) = Some (r_location r))
      (readings_added w w') /\
    (forall k, In k (Dict.keys (sensors (self w))) ->
       exists r, In r (readings_added w w') /\ r_sensor_id r = k /\
         option_map lr_temperature (last_reading_of w' k) =
           Some (r_temperature r)) /\
    Dict.keys (sensors (self w')) = Dict.keys (sensors (self w)) /\
    is_running (self w') = is_running (self w).
Proof.
  intros NF.
  destruct (tick_never_fails w NF)
    as (w' & rows & T & R & Ids & Rows & Last & Keys & Run & _ & C).
  exists w'. rewrite (readings_added_app _ _ _ R).
  split; [ exact T | ]. split; [ exact Ids | ].
  split; [ eapply Forall_impl; [ | exact Rows ]; cbn beta; tauto | ].
  split; [ | split; assumption ].
  intros k I. destruct (Last k I) as (r & Ir & Er & L).
  exists r. rewrite L. auto.
Qed.

Lemma demo_world_never_fails : never_fails demo_world.
Proof. intros n. reflexivity. Qed.

Lemma tick_one_reading_per_sensor_witness :
  never_fails demo_world /\
  exists w',
    tick demo_world = Ok tt w' /\
    map r_sensor_id (readings_added demo_world w') =
      [ "sensor_001"; "sensor_002"; "sensor_003"; "sensor_004"; "sensor_005" ].
Proof.
  split; [ exact demo_world_never_fails | ].
  destruct (tick_one_reading_per_sensor demo_world demo_world_never_fails)
    as (w' & T & Ids & _).
  exists w'. split; [ exact T | exact Ids ].
Defined.

Lemma while_is_running_never_fails passes :
  forall w,
    never_fails w ->
    is_running (self w) = true ->
    exists w' new,
      while_is_running passes w = Ok StillRunning w' /\
      temperature_readings (db w') = temperature_readings (db w) ++ new /\
      List.length new =
        (passes * List.length (Dict.keys (sensors (self w))))%nat /\
      clock w' = (clock w + 3 * Z.of_nat passes)%Z /\
      is_running (self w') = true.
Proof.
  induction passes as [ | n IH ]; intros w NF Run.
  - exists w, []. rewrite app_nil_r. cbn [List.length Nat.mul].
    repeat split; [ lia | exact Run ].
  - destruct (tick_never_fails w NF)
      as (w1 & rows & T & R & Ids & _ & _ & Keys & Run1 & NF1 & C1).
    destruct (IH w1 NF1) as (w' & new & W & R' & Len & C & Run').
    { rewrite Run1. exact Run. }
    exists w', (rows ++ new). split.
    { cbn [while_is_running]. unfold bind at 1. unfold get_world.
      cbv beta iota. rewrite Run. unfold bind. rewrite T. exact W. }
    split; [ rewrite R', R, app_assoc; reflexivity | ].
    split; [ | split; [ lia | exact Run' ] ].
    rewrite length_app, Len, Keys, <- Ids, length_map. cbn [Nat.mul]. lia.
Qed.

(** X8. On a disk that does not fail the loop does not end by itself: with
    the running flag set, after any number of passes it is still running
    and has raised nothing, and it has appended one reading per registered
    sensor and pass. *)
Theorem while_is_running_keeps_going passes w :
  never_fails w ->
  is_running (self w) = true ->
  exists w',
    while_is_running passes w = Ok StillRunning w' /\
    List.length (readings_added w w') =
      (passes * List.length (Dict.keys (sensors (self w))))%nat /\
    is_running (self w') = true.
Proof.
  intros NF Run.
  destruct (while_is_running_never_fails passes w NF Run)
    as (w' & new & W & R & Len & C & Run').
  exists w'. rewrite (readings_added_app _ _ _ R). auto.
Qed.

Lemma while_is_running_keeps_going_witness :
  let w := final_world (start_monitoring demo_world) in
  never_fails w /\ is_running (self w) = true /\
  exists w',
    while_is_running 3 w = Ok StillRunning w' /\
    List.length (readings_added w w') = 15%nat.
Proof.
  cbv zeta.
  assert (NF : never_fails (final_world (start_monitoring demo_world)))
    by (intros n; reflexivity).
  split; [ exact NF | ]. split; [ reflexivity | ].
  destruct (while_is_running_keeps_going 3
              (final_world (start_monitoring demo_world)) NF eq_refl)
    as (w' & W & L & _).
  exists w'. split; [ exact W | exact L ].
Defined.

(** ** The registry is stable *)

Lemma check_alerts_self sensor_id t w :
  self (final_world (check_alerts sensor_id t w)) = self w.
Proof.
  unfold check_alerts, store_alert, sqlite3_connect, cursor_execute,
    conn_commit, db_operation, sensors_lookup, logger_warning, print,
    bind, get_world, modify, ret.
  cbv beta iota.
  destruct (Qgtb _ _); [ | destruct (Qltb _ _) ]; try reflexivity;
    (destruct (Dict.get _ _); [ | reflexivity ]);
    (destruct (io_fail w (io_pos w)); cbn; [ reflexivity | ]);
    (destruct (io_fail w (S (io_pos w))); cbn; [ reflexivity | ]);
    (destruct (io_fail w (S (S (io_pos w)))); cbn; reflexivity).
Qed.

Lemma store_reading_self sensor_id t w :
  self (final_world (store_reading sensor_id t w)) = self w.
Proof.
  destruct (store_reading sensor_id t w) as [ [] w' | e w' ] eqn:E;
    cbn [final_world].
  - revert E.
    unfold store_reading, sqlite3_connect, cursor_execute, conn_commit,
      db_operation, sensors_lookup, bind, get_world, modify.
    destruct (io_fail w (io_pos w)); cbn; [ discriminate | ].
    destruct (Dict.get (sensors (self w)) sensor_id); cbn; [ | discriminate ].
    destruct (io_fail w (S (io_pos w))); cbn; [ discriminate | ].
    destruct (io_fail w (S (S (io_pos w)))); cbn; [ discriminate | ].
    intros H. injection H as <-. reflexivity.
  - apply (store_reading_raises _ _ _ _ _ E).
Qed.

Lemma registry_entries_set d k (s s' : Sensor) :
  Dict.get d k = Some s ->
  location s' = location s -> current_temp s' = current_temp s ->
  is_active s' = is_active s ->
  map (fun '(k, s) => (k, location s, current_temp s, is_active s))
      (Dict.set d k s') =
  map (fun '(k, s) => (k, location s, current_temp s, is_active s)) d.
Proof.
  intros G L C A.
  induction d as [ | [ k0 s0 ] d IH ]; cbn [Dict.get Dict.set map] in *;
    [ discriminate | ].
  destruct (String.eqb k k0); cbn [map].
  - injection G as ->. rewrite L, C, A. reflexivity.
  - rewrite (IH G). reflexivity.
Qed.

Lemma registry_kept_process_sensor sensor_id :
  respects registry_kept (process_sensor sensor_id).
Proof.
  intros w. unfold registry_kept, registry_entries, process_sensor, bind.
  destruct (generate_returns sensor_id w) as (t & f & G). rewrite G.
  pose proof (store_reading_self sensor_id t (with_rng_pos f w)) as S.
  destruct (store_reading sensor_id t (with_rng_pos f w)) as [ [] w1 | e w1 ];
    cbn [final_world] in *; [ | rewrite S; reflexivity ].
  pose proof (check_alerts_self sensor_id t w1) as C.
  destruct (check_alerts sensor_id t w1) as [ [] w2 | e w2 ];
    cbn [final_world] in *; [ | rewrite C, S; reflexivity ].
  unfold update_last_reading, bind, sensors_lookup, get_world.
  destruct (Dict.get (sensors (self w2)) sensor_id) as [ s | ] eqn:K;
    cbn [final_world]; [ | rewrite C, S; reflexivity ].
  cbn. rewrite (registry_entries_set _ _ s) by (assumption || reflexivity).
  rewrite C, S. reflexivity.
Qed.

(** X9. No run changes the registry except for last readings: whatever the
    calls to [start_monitoring] and [stop_monitoring], the turns of the
    threads and the failures of the disk, the registry holds the same
    sensors in the same order, each with the id, the location, the initial
    temperature and the active flag it had. *)
Theorem registry_entries_stable evs w :
  registry_entries (final_world (run_events evs w)) = registry_entries w.
Proof.
  apply (run_run_events registry_kept); unfold registry_kept; intros;
    try reflexivity.
  - congruence.
  - apply registry_kept_process_sensor.
Qed.

(** ** Extreme draws and quiet sensors *)

(** X10. An extreme draw always raises an alert. When the second draw of
    the generator is below 0.3, the temperature it returns for a registered
    sensor makes [check_alerts] store exactly one alert, of kind
    [HIGH_TEMPERATURE] when the third draw is below 0.5 and of kind
    [LOW_TEMPERATURE] otherwise (thresholds of [__init__], draws in [0, 1),
    a disk that accepts the write). *)
Theorem extreme_draw_always_alerts sensor_id s w t w1 :
  draws_in_unit w ->
  thresholds_set w ->
  Dict.get (sensors (self w)) sensor_id = Some s ->
  storage_healthy w 3 ->
  takes_extreme (rng w (S (rng_pos w))) = true ->
  generate_random_temperature sensor_id w = Ok t w1 ->
  alert_types_produced sensor_id t w1 =
    [ if takes_high (rng w (S (S (rng_pos w))))
      then "HIGH_TEMPERATURE" else "LOW_TEMPERATURE" ].
Proof.
  intros D [ TH TL ] K H X G.
  rewrite generate_random_temperature_eq in G. cbv zeta in G.
  unfold takes_extreme in X. rewrite X in G. unfold takes_high.
  destruct (Qltb (rng w (S (S (rng_pos w)))) (1 # 2)); injection G as <- <-.
  - assert (R : in_range 26 35
                  (round (26 + (35 - 26) * rng w (S (S (S (rng_pos w))))) 1)).
    { apply (round_in_range 26 35); try apply one_decimal_Z.
      apply uniform_in_range; [ discriminate | apply D ]. }
    destruct R as [ Lo _ ].
    match goal with
    | |- alert_types_produced _ ?t ?w1 = _ =>
        destruct (check_alerts_healthy sensor_id s t w1 K H) as [ _ P ];
          rewrite P
    end.
    cbn [self with_rng_pos]. rewrite TH.
    match goal with
    | |- (if Qgtb ?t 25 then _ else _) = _ =>
        assert (E : Qgtb t 25 = true) by (apply Qgtb_gt; lra); rewrite E
    end.
    reflexivity.
  - assert (R : in_range (-5) 1
                  (round (-5 + (1 - -5) * rng w (S (S (S (rng_pos w))))) 1)).
    { apply (round_in_range (-5) 1);
        try apply (one_decimal_Z (-5)); try apply one_decimal_Z.
      apply uniform_in_range; [ discriminate | apply D ]. }
    destruct R as [ _ Hi ].
    match goal with
    | |- alert_types_produced _ ?t ?w1 = _ =>
        destruct (check_alerts_healthy sensor_id s t w1 K H) as [ _ P ];
          rewrite P
    end.
    cbn [self with_rng_pos]. rewrite TH, TL.
    match goal with
    | |- (if Qgtb ?t 25 then _ else _) = _ =>
        assert (E : Qgtb t 25 = false) by (apply Qgtb_le; lra); rewrite E;
        assert (E' : Qltb t 2 = true) by (apply Qltb_lt; lra); rewrite E'
    end.
    reflexivity.
Qed.

Lemma extreme_draw_always_alerts_witness :
  let w1 := final_world (generate_random_temperature "sensor_004" extreme_world) in
  draws_in_unit extreme_world /\
  thresholds_set extreme_world /\
  storage_healthy extreme_world 3 /\
  takes_extreme (rng extreme_world (S (rng_pos extreme_world))) = true /\
  generate_random_temperature "sensor_004" extreme_world = Ok (269 # 10) w1 /\
  alert_types_produced "sensor_004" (269 # 10) w1 = [ "HIGH_TEMPERATURE" ].
Proof.
  cbv zeta.
  assert (D : draws_in_unit extreme_world).
  { intros n. split; vm_compute; [ discriminate | reflexivity ]. }
  assert (T : thresholds_set extreme_world) by (split; reflexivity).
  assert (H : storage_healthy extreme_world 3) by (intros k _; reflexivity).
  assert (G : generate_random_temperature "sensor_004" extreme_world =
              Ok (269 # 10)
                 (final_world
                    (generate_random_temperature "sensor_004" extreme_world)))
    by (vm_compute; reflexivity).
  split; [ exact D | ]. split; [ exact T | ]. split; [ exact H | ].
  split; [ reflexivity | ]. split; [ exact G | ].
  apply (extreme_draw_always_alerts "sensor_004"
           (fresh_sensor (boot empty_db (fun _ => 1 # 10) no_faults 1000) 3
              "Office Area")
           extreme_world (269 # 10) _ D T eq_refl H eq_refl G).
Defined.

(** X11. A sensor whose own range lies within the thresholds is quiet on
    normal draws: when the range the generator uses for a sensor id lies
    within [2, 25] (as for [sensor_004], and for any id that has no range of
    its own) and the second draw is at least 0.3, [check_alerts] called on
    the generated temperature has no effect at all: no alert, no log line,
    no database operation, no exception. *)
Theorem normal_draw_within_thresholds_is_quiet sensor_id w t w1 :
  draws_in_unit w ->
  thresholds_set w ->
  2 <= fst (base_range sensor_id) ->
  snd (base_range sensor_id) <= 25 ->
  takes_extreme (rng w (S (rng_pos w))) = false ->
  generate_random_temperature sensor_id w = Ok t w1 ->
  check_alerts sensor_id t w1 = Ok tt w1.
Proof.
  intros D [ TH TL ] Lo Hi X G.
  destruct (generate_normal_in_range sensor_id w t w1 D X G) as [ L H ].
  rewrite generate_random_temperature_eq in G. cbv zeta in G.
  unfold takes_extreme in X. rewrite X in G. injection G as E1 E2.
  unfold check_alerts, bind, get_world. cbv beta iota.
  rewrite <- E2. cbn [self with_rng_pos]. rewrite TH, TL.
  assert (A : Qgtb t 25 = false) by (apply Qgtb_le; lra).
  assert (B : Qltb t 2 = false) by (apply Qltb_ge; lra).
  rewrite A, B. reflexivity.
Qed.

Lemma normal_draw_within_thresholds_is_quiet_witness :
  let r := generate_random_temperature "sensor_004" demo_world in
  draws_in_unit demo_world /\
  thresholds_set demo_world /\
  2 <= fst (base_range "sensor_004") /\
  snd (base_range "sensor_004") <= 25 /\
  takes_extreme (rng demo_world (S (rng_pos demo_world))) = false /\
  r = Ok (232 # 10) (final_world r) /\
  check_alerts "sensor_004" (232 # 10) (final_world r) = Ok tt (final_world r).
Proof.
  cbv zeta.
  assert (G : generate_random_temperature "sensor_004" demo_world =
              Ok (232 # 10)
                 (final_world
                    (generate_random_temperature "sensor_004" demo_world)))
    by (vm_compute; reflexivity).
  split; [ exact demo_world_draws | ].
  split; [ exact demo_world_thresholds | ].
  split; [ discriminate | ]. split; [ discriminate | ].
  split; [ reflexivity | ]. split; [ exact G | ].
  apply (normal_draw_within_thresholds_is_quiet "sensor_004" demo_world
           (232 # 10) _ demo_world_draws demo_world_thresholds).
  - discriminate.
  - discriminate.
  - reflexivity.
  - exact G.
Defined.

(** ** The console display *)

(** X12. The status the display shows for a temperature agrees with what
    [check_alerts] did with it: for a registered sensor, the thresholds of
    [__init__] and a disk that accepts the write, the display says
    [HIGH_ALERT] exactly when a [HIGH_TEMPERATURE] alert was stored,
    [LOW_ALERT] exactly when a [LOW_TEMPERATURE] alert was stored, and
    [NORMAL] exactly when none was. *)
Theorem display_status_matches_alerts sensor_id s t w :
  thresholds_set w ->
  Dict.get (sensors (self w)) sensor_id = Some s ->
  storage_healthy w 3 ->
  (display_status_of t = HIGH_ALERT <->
   alert_types_produced sensor_id t w = [ "HIGH_TEMPERATURE" ]) /\
  (display_status_of t = LOW_ALERT <->
   alert_types_produced sensor_id t w = [ "LOW_TEMPERATURE" ]) /\
  (display_status_of t = NORMAL <->
   alert_types_produced sensor_id t w = []).
Proof.
  intros [ TH TL ] K H.
  destruct (check_alerts_healthy sensor_id s t w K H) as [ _ P ].
  rewrite P, TH, TL. unfold display_status_of.
  destruct (Qgtb t 25); [ | destruct (Qltb t 2) ];
    repeat split; intros; try reflexivity; discriminate.
Qed.

Lemma display_status_matches_alerts_witness :
  thresholds_set demo_world /\
  Dict.get (sensors (self demo_world)) "sensor_001" =
    Some (fresh_sensor demo_boot 0 "Cold Storage Area") /\
  storage_healthy demo_world 3 /\
  (display_status_of (15 # 10) = LOW_ALERT <->
   alert_types_produced "sensor_001" (15 # 10) demo_world = [ "LOW_TEMPERATURE" ]).
Proof.
  split; [ exact demo_world_thresholds | ].
  split; [ reflexivity | ].
  split; [ exact (demo_world_healthy 3) | ].
  apply (display_status_matches_alerts "sensor_001"
           (fresh_sensor demo_boot 0 "Cold Storage Area") (15 # 10) demo_world
           demo_world_thresholds eq_refl (demo_world_healthy 3)).
Defined.

Lemma dict_get_in {V} (d : Dict.dict V) k v :
  NoDup (Dict.keys d) -> In (k, v) d -> Dict.get d k = Some v.
Proof.
  unfold Dict.keys.
  induction d as [ | [ k0 v0 ] d IH ]; cbn [map fst In Dict.get];
    [ contradiction | ].
  intros N [ E | I ].
  - injection E as -> ->. rewrite String.eqb_refl. reflexivity.
  - inversion N as [ | ? ? NI N' ]; subst.
    destruct (String.eqb k k0) eqn:E.
    + apply String.eqb_eq in E. subst k0. exfalso. apply NI.
      apply (in_map fst) in I. exact I.
    + apply IH; assumption.
Qed.

Lemma nodup_map_injective {A B} (f : A -> B) l a b :
  NoDup (map f l) -> In a l -> In b l -> f a = f b -> a = b.
Proof.
  induction l as [ | x l IH ]; cbn [map In]; [ contradiction | ].
  intros N [ -> | Ia ] [ -> | Ib ] E; auto;
    inversion N as [ | ? ? NI N' ]; subst.
  - exfalso. apply NI. rewrite E. apply in_map, Ib.
  - exfalso. apply NI. rewrite <- E. apply in_map, Ia.
  - apply IH; assumption.
Qed.

Lemma forall2_aligned {A B K} (f : A -> K) (g : B -> K) (R : A -> B -> Prop) l1 :
  forall l2,
    map f l1 = map g l2 ->
    (forall a b, In a l1 -> In b l2 -> f a = g b -> R a b) ->
    Forall2 R l1 l2.
Proof.
  induction l1 as [ | a l1 IH ]; intros [ | b l2 ] E H; cbn [map] in E;
    try discriminate; constructor.
  - injection E as E _. apply H; [ left | left | ]; auto.
  - injection E as _ E. apply IH; [ exact E | ].
    intros a' b' Ia Ib. apply H; right; assumption.
Qed.

(** X13. After a pass on a disk that does not fail, the display shows what
    the pass wrote: one line per registered sensor, in the order of
    registration, with the location and the temperature of the reading
    stored for that sensor in this pass, and the status of that
    temperature. *)
Theorem display_after_tick w w' :
  never_fails w ->
  NoDup (Dict.keys (sensors (self w))) ->
  tick w = Ok tt w' ->
  display_lines (self w') =
    map (fun r => (display_status_of (r_temperature r), r_location r,
                   r_temperature r))
        (readings_added w w').
Proof.
  intros NF ND T.
  destruct (tick_never_fails w NF)
    as (w2 & rows & T2 & R & Ids & Rows & Last & Keys & _ & _ & _).
  rewrite T2 in T. injection T as ->.
  rewrite (readings_added_app _ _ _ R).
  assert (Reg : registry_entries w' = registry_entries w).
  { pose proof (run_tick registry_kept) as RT.
    unfold registry_kept in RT.
    specialize (RT (fun _ => eq_refl)).
    specialize (RT (fun w1 w2 w3 (H1 : registry_entries w2 = registry_entries w1)
                       (H2 : registry_entries w3 = registry_entries w2) =>
                      eq_trans H2 H1)).
    specialize (RT registry_kept_process_sensor (fun _ _ => eq_refl) w).
    rewrite T2 in RT. exact RT. }
  assert (F : Forall2
                (fun (e : string * Sensor) r =>
                   last_reading (snd e) =
                     Some {| lr_temperature := r_temperature r;
                             lr_timestamp := clock w |} /\
                   location (snd e) = r_location r)
                (sensors (self w')) rows).
  { apply (forall2_aligned fst r_sensor_id).
    - fold (Dict.keys (sensors (self w'))). rewrite Keys, Ids. reflexivity.
    - intros [ k s' ] r Ie Ir E. cbn [fst snd] in *. subst k.
      assert (G : Dict.get (sensors (self w')) (r_sensor_id r) = Some s').
      { apply dict_get_in; [ rewrite Keys; exact ND | exact Ie ]. }
      assert (Ik : In (r_sensor_id r) (Dict.keys (sensors (self w)))).
      { rewrite <- Ids. apply in_map, Ir. }
      destruct (Last _ Ik) as (r' & Ir' & Er' & L).
      assert (r' = r).
      { apply (nodup_map_injective r_sensor_id rows); auto.
        rewrite Ids. exact ND. }
      subst r'. unfold last_reading_of in L. rewrite G in L.
      split; [ exact L | ].
      rewrite Forall_forall in Rows. destruct (Rows r Ir) as [ _ Loc ].
      unfold location_of in Loc.
      assert (Lw : option_map location (Dict.get (sensors (self w')) (r_sensor_id r)) =
                   option_map location (Dict.get (sensors (self w)) (r_sensor_id r))).
      { clear - Reg. unfold registry_entries in Reg.
        revert Reg. generalize (sensors (self w)) as d.
        induction (sensors (self w')) as [ | [ k1 s1 ] d' IH ];
          intros [ | [ k2 s2 ] d ] Reg; cbn [map] in Reg; try discriminate.
        - reflexivity.
        - injection Reg as -> L1 _ _ Reg. cbn [Dict.get].
          destruct (String.eqb _ _); [ cbn; rewrite L1; reflexivity | ].
          apply IH, Reg. }
      rewrite G in Lw. cbn [option_map] in Lw. congruence. }
  unfold display_lines. clear - F.
  induction F as [ | [ k s' ] r d rs [ L Loc ] F IH ]; [ reflexivity | ].
  cbn [flat_map map snd] in *. rewrite L, Loc, IH. reflexivity.
Qed.

Lemma display_after_tick_witness :
  never_fails demo_world /\
  NoDup (Dict.keys (sensors (self demo_world))) /\
  tick demo_world = Ok tt (final_world (tick demo_world)) /\
  map (fun '(st, loc, _) => (st, loc))
      (display_lines (self (final_world (tick demo_world)))) =
    [ (NORMAL, "Cold Storage Area"); (HIGH_ALERT, "Loading Dock");
      (HIGH_ALERT, "Main Storage Area"); (NORMAL, "Office Area");
      (NORMAL, "Shipping Department") ].
Proof.
  assert (ND : NoDup (Dict.keys (sensors (self demo_world)))).
  { vm_compute. repeat constructor; cbn; intuition discriminate. }
  assert (T : tick demo_world = Ok tt (final_world (tick demo_world)))
    by (vm_compute; reflexivity).
  split; [ exact demo_world_never_fails | ].
  split; [ exact ND | ]. split; [ exact T | ].
  rewrite (display_after_tick demo_world _ demo_world_never_fails ND T).
  vm_compute. reflexivity.
Defined.

(** ** The history query *)

Lemma insert_asc_perm r l : Permutation (insert_asc r l) (r :: l).
Proof.
  induction l as [ | b l IH ]; cbn [insert_asc].
  - apply Permutation_refl.
  - destruct (r_timestamp r <=? r_timestamp b)%Z.
    + apply Permutation_refl.
    + eapply perm_trans; [ apply perm_skip, IH | apply perm_swap ].
Qed.

Lemma order_by_timestamp_perm l : Permutation (order_by_timestamp l) l.
Proof.
  induction l as [ | a l IH ]; cbn [order_by_timestamp fold_right].
  - apply perm_nil.
  - eapply perm_trans; [ apply insert_asc_perm | apply perm_skip, IH ].
Qed.

Lemma insert_asc_sorted r l :
  Sorted rows_older_first l -> Sorted rows_older_first (insert_asc r l).
Proof.
  induction l as [ | b l IH ]; intros S; cbn [insert_asc].
  - repeat constructor.
  - destruct (Z.leb_spec (r_timestamp r) (r_timestamp b)) as [ Le | Gt ].
    + constructor; [ exact S | constructor; exact Le ].
    + inversion S as [ | ? ? S' Hd ]; subst.
      constructor; [ apply IH, S' | ].
      destruct l as [ | c l ]; cbn [insert_asc].
      * constructor. unfold rows_older_first. lia.
      * destruct (r_timestamp r <=? r_timestamp c)%Z.
        -- constructor. unfold rows_older_first. lia.
        -- inversion Hd; subst. constructor. assumption.
Qed.

Lemma order_by_timestamp_sorted l :
  StronglySorted rows_older_first (order_by_timestamp l).
Proof.
  apply Sorted_StronglySorted.
  - intros x y z. unfold rows_older_first. lia.
  - induction l as [ | a l IH ]; cbn [order_by_timestamp fold_right].
    + constructor.
    + apply insert_asc_sorted, IH.
Qed.

Lemma history_points_sorted l :
  StronglySorted rows_older_first l ->
  StronglySorted (fun x y => (h_timestamp x <= h_timestamp y)%Z)
    (map (fun row => {| h_temperature := r_temperature row;
                        h_timestamp := r_timestamp row |}) l).
Proof.
  induction 1 as [ | a l S IH F ]; cbn [map]; constructor.
  - exact IH.
  - apply Forall_map. exact F.
Qed.

(** X14. The history query returns, up to order, exactly the temperature
    and timestamp of the readings of the requested sensor whose timestamp is
    not before the cutoff, each as often as it occurs, and returns them in
    ascending order of timestamp. It returns the empty array when the sensor
    has no reading in the window, in particular for a sensor id without
    readings, and when the cutoff is NULL. *)
Theorem get_temperature_history_window d sensor_id cutoff :
  (forall c, cutoff = Some c ->
     Permutation (get_temperature_history d sensor_id cutoff)
       (map (fun r => {| h_temperature := r_temperature r;
                         h_timestamp := r_timestamp r |})
            (filter (fun r => String.eqb (r_sensor_id r) sensor_id &&
                              (c <=? r_timestamp r)%Z)
                    (temperature_readings d)))) /\
  StronglySorted (fun x y => (h_timestamp x <= h_timestamp y)%Z)
    (get_temperature_history d sensor_id cutoff) /\
  (forall row, In row (select_history (temperature_readings d) sensor_id cutoff) <->
     In row (temperature_readings d) /\ r_sensor_id row = sensor_id /\
     exists c, cutoff = Some c /\ (c <= r_timestamp row)%Z) /\
  ((forall row, In row (temperature_readings d) -> r_sensor_id row = sensor_id ->
      forall c, cutoff = Some c -> (r_timestamp row < c)%Z) ->
   get_temperature_history d sensor_id cutoff = []) /\
  get_temperature_history d sensor_id None = [].
Proof.
  unfold get_temperature_history, select_history.
  set (keep := fun r : ReadingRow =>
                 String.eqb (r_sensor_id r) sensor_id &&
                 match cutoff with
                 | Some c => (c <=? r_timestamp r)%Z
                 | None => false
                 end).
  pose proof (order_by_timestamp_perm (filter keep (temperature_readings d))) as P.
  assert (U : forall row,
            In row (order_by_timestamp (filter keep (temperature_readings d))) <->
            In row (temperature_readings d) /\ r_sensor_id row = sensor_id /\
            exists c, cutoff = Some c /\ (c <= r_timestamp row)%Z).
  { intros row. split.
    - intros I. apply (Permutation_in _ P) in I.
      apply filter_In in I. destruct I as [ I K ]. unfold keep in K.
      apply andb_true_iff in K. destruct K as [ K1 K2 ].
      apply String.eqb_eq in K1.
      destruct cutoff as [ c | ]; [ | discriminate ].
      apply Z.leb_le in K2. eauto.
    - intros (I & E & c & -> & L).
      apply (Permutation_in _ (Permutation_sym P)).
      apply filter_In. split; [ exact I | ]. unfold keep.
      apply andb_true_iff. split; [ apply String.eqb_eq, E | apply Z.leb_le, L ]. }
  split; [ | split; [ | split; [ exact U | split ] ] ].
  - intros c ->. apply Permutation_map. exact P.
  - apply history_points_sorted, order_by_timestamp_sorted.
  - intros H.
    destruct (order_by_timestamp (filter keep (temperature_readings d)))
      as [ | row l ] eqn:E; [ reflexivity | exfalso ].
    destruct (proj1 (U row)) as (I & S & c & C & L); [ left; reflexivity | ].
    specialize (H row I S c C). lia.
  - assert (E : filter (fun r : ReadingRow =>
                          String.eqb (r_sensor_id r) sensor_id && false)
                       (temperature_readings d) = []).
    { clear. induction (temperature_readings d) as [ | r l IH ];
        [ reflexivity | ].
      cbn [filter]. rewrite andb_false_r. exact IH. }
    rewrite E. reflexivity.
Qed.

Lemma get_temperature_history_window_witness :
  List.length (get_temperature_history two_pass_db "sensor_002" (Some 1002%Z)) = 1%nat /\
  (forall row, In row (temperature_readings two_pass_db) ->
     r_sensor_id row = "sensor_002" ->
     forall c, Some 2000%Z = Some c -> (r_timestamp row < c)%Z) /\
  get_temperature_history two_pass_db "sensor_002" (Some 2000%Z) = [].
Proof.
  assert (H : forall row, In row (temperature_readings two_pass_db) ->
     r_sensor_id row = "sensor_002" ->
     forall c, Some 2000%Z = Some c -> (r_timestamp row < c)%Z).
  { intros row I _ c E. injection E as <-.
    assert (B : forallb (fun r => (r_timestamp r <? 2000)%Z)
                  (temperature_readings two_pass_db) = true)
      by (vm_compute; reflexivity).
    rewrite forallb_forall in B. apply Z.ltb_lt, B, I. }
  split; [ | split; [ exact H | ] ].
  - destruct (get_temperature_history_window two_pass_db "sensor_002"
                (Some 1002%Z)) as (P & _).
    rewrite (Permutation_length (P 1002%Z eq_refl)). vm_compute. reflexivity.
  - destruct (get_temperature_history_window two_pass_db "sensor_002"
                (Some 2000%Z)) as (_ & _ & _ & E & _).
    apply E. exact H.
Defined.

(** ** The current-temperatures query *)

Lemma max_timestamp_bound sensor_id rows m :
  max_timestamp sensor_id rows = Some m ->
  (forall o, In o rows -> r_sensor_id o = sensor_id -> (r_timestamp o <= m)%Z) /\
  (exists o, In o rows /\ r_sensor_id o = sensor_id /\ r_timestamp o = m).
Proof.
  revert m. induction rows as [ | r rows IH ]; intros m;
    cbn [max_timestamp In]; [ discriminate | ].
  destruct (String.eqb (r_sensor_id r) sensor_id) eqn:E.
  - apply String.eqb_eq in E.
    destruct (max_timestamp sensor_id rows) as [ m' | ] eqn:M.
    + intros H. injection H as <-. destruct (IH m' eq_refl) as [ B (o & I & S & T) ].
      split.
      * intros o' [ <- | I' ] S'; [ lia | ]. specialize (B o' I' S'). lia.
      * destruct (Z.max_spec (r_timestamp r) m') as [ [ _ -> ] | [ _ -> ] ].
        -- exists o. auto.
        -- exists r. auto.
    + intros H. injection H as <-. split.
      * intros o' [ <- | I' ] S'; [ lia | ].
        exfalso. clear - M I' S'.
        induction rows as [ | x rows IH ]; cbn [max_timestamp In] in *;
          [ contradiction | ].
        destruct I' as [ -> | I' ].
        -- apply String.eqb_eq in S'. rewrite S' in M.
           destruct (max_timestamp sensor_id rows); discriminate.
        -- destruct (String.eqb (r_sensor_id x) sensor_id);
             [ destruct (max_timestamp sensor_id rows); discriminate | auto ].
      * exists r. auto.
  - intros H. destruct (IH m H) as [ B (o & I & S & T) ]. split.
    + intros o' [ <- | I' ] S'.
      * apply String.eqb_neq in E. contradiction.
      * apply B; assumption.
    + exists o. auto.
Qed.

Lemma max_timestamp_some sensor_id rows r :
  In r rows -> r_sensor_id r = sensor_id ->
  exists m, max_timestamp sensor_id rows = Some m.
Proof.
  induction rows as [ | x rows IH ]; cbn [max_timestamp In]; [ contradiction | ].
  intros [ -> | I ] S.
  - apply String.eqb_eq in S. rewrite S.
    destruct (max_timestamp sensor_id rows); eauto.
  - destruct (String.eqb (r_sensor_id x) sensor_id); [ | auto ].
    destruct (max_timestamp sensor_id rows); eauto.
Qed.

Lemma distinct_sensor_ids_in rows s :
  In s (distinct_sensor_ids rows) <-> exists r, In r rows /\ r_sensor_id r = s.
Proof.
  induction rows as [ | x rows IH ]; cbn [distinct_sensor_ids In].
  - split; [ contradiction | intros (r & [] & _) ].
  - rewrite filter_In, IH. split.
    + intros [ E | [ (r & I & S) _ ] ]; [ exists x; auto | exists r; auto ].
    + intros (r & [ -> | I ] & S); [ left; exact S | ].
      destruct (string_dec (r_sensor_id x) s) as [ E | N ]; [ left; exact E | ].
      right. split; [ exists r; auto | ].
      apply negb_true_iff, String.eqb_neq. auto.
Qed.

Lemma distinct_sensor_ids_nodup rows : NoDup (distinct_sensor_ids rows).
Proof.
  induction rows as [ | x rows IH ]; cbn [distinct_sensor_ids]; constructor.
  - rewrite filter_In. intros [ _ N ].
    rewrite String.eqb_refl in N. discriminate.
  - apply NoDup_filter, IH.
Qed.

Lemma flat_map_nil {A B} (h : A -> list B) l :
  (forall x, In x l -> h x = []) -> flat_map h l = [].
Proof.
  induction l as [ | x l IH ]; intros H; [ reflexivity | ].
  cbn [flat_map]. rewrite (H x) by (left; reflexivity).
  apply IH. intros y I. apply H. right. exact I.
Qed.

Lemma flat_map_single {A B} (h : A -> list B) l a :
  NoDup l -> In a l -> (forall x, In x l -> x <> a -> h x = []) ->
  flat_map h l = h a.
Proof.
  induction l as [ | x l IH ]; cbn [flat_map In]; [ contradiction | ].
  intros N [ -> | I ] H; inversion N as [ | ? ? NI N' ]; subst.
  - rewrite (flat_map_nil h l), app_nil_r; [ reflexivity | ].
    intros y Iy. apply H; [ right; exact Iy | ].
    intros ->. contradiction.
  - rewrite (H x); [ | left; reflexivity | intros ->; contradiction ].
    apply IH; [ exact N' | exact I | intros z Iz; apply H; right; exact Iz ].
Qed.

(** The groups of [latest] that a row joins with. *)
Lemma latest_join rows tr m :
  In tr rows ->
  max_timestamp (r_sensor_id tr) rows = Some m ->
  filter (fun '(s, m') =>
            String.eqb (r_sensor_id tr) s && (r_timestamp tr =? m')%Z)
         (latest rows) =
  if (r_timestamp tr =? m)%Z then [ (r_sensor_id tr, m) ] else [].
Proof.
  intros I M. unfold latest.
  set (P := fun '((s, m') : string * Z) =>
              String.eqb (r_sensor_id tr) s && (r_timestamp tr =? m')%Z).
  set (g := fun s => match max_timestamp s rows with
                     | Some m => [ (s, m) ]
                     | None => []
                     end).
  assert (E : filter P (flat_map g (distinct_sensor_ids rows)) =
              flat_map (fun s => filter P (g s)) (distinct_sensor_ids rows)).
  { induction (distinct_sensor_ids rows) as [ | s l IH ]; [ reflexivity | ].
    cbn [flat_map]. rewrite filter_app, IH. reflexivity. }
  rewrite E.
  rewrite (flat_map_single _ _ (r_sensor_id tr)).
  - unfold g. rewrite M. cbn [filter P]. unfold P.
    rewrite String.eqb_refl. cbn [andb].
    destruct (r_timestamp tr =? m)%Z; reflexivity.
  - apply distinct_sensor_ids_nodup.
  - apply distinct_sensor_ids_in. exists tr. auto.
  - intros s _ N. unfold g.
    destruct (max_timestamp s rows); [ | reflexivity ].
    cbn [filter]. unfold P.
    assert (F : String.eqb (r_sensor_id tr) s = false).
    { apply String.eqb_neq. auto. }
    rewrite F. reflexivity.
Qed.

Lemma is_latest_max rows tr m :
  In tr rows ->
  max_timestamp (r_sensor_id tr) rows = Some m ->
  is_latest rows tr = (r_timestamp tr =? m)%Z.
Proof.
  intros I M. destruct (max_timestamp_bound _ _ _ M) as [ B (o & Io & So & To) ].
  apply eq_true_iff_eq. unfold is_latest.
  rewrite forallb_forall, Z.eqb_eq. split.
  - intros H. specialize (H o Io). rewrite So, String.eqb_refl in H.
    cbn in H. apply Z.leb_le in H. specialize (B tr I eq_refl). lia.
  - intros E o' Io'.
    destruct (String.eqb (r_sensor_id o') (r_sensor_id tr)) eqn:S; cbn;
      [ | reflexivity ].
    apply String.eqb_eq in S. apply Z.leb_le. specialize (B o' Io' S). lia.
Qed.

Lemma select_current_latest rows :
  select_current rows = filter (is_latest rows) rows.
Proof.
  unfold select_current.
  assert (G : forall l, (forall tr, In tr l -> In tr rows) ->
     flat_map
       (fun tr =>
          map (fun _ => tr)
            (filter (fun '(s, m) =>
                       String.eqb (r_sensor_id tr) s && (r_timestamp tr =? m)%Z)
                    (latest rows))) l =
     filter (is_latest rows) l).
  { induction l as [ | tr l IH ]; intros Sub; [ reflexivity | ].
    cbn [flat_map filter].
    destruct (max_timestamp_some (r_sensor_id tr) rows tr) as (m & M);
      [ apply Sub; left; reflexivity | reflexivity | ].
    rewrite (latest_join rows tr m), (is_latest_max rows tr m), IH;
      auto; try (apply Sub; left; reflexivity);
      try (intros x Ix; apply Sub; right; exact Ix).
    destruct (r_timestamp tr =? m)%Z; reflexivity. }
  apply G. auto.
Qed.

(** X15. The current-temperatures query returns exactly the readings that
    have the greatest timestamp among the readings of their sensor, each
    once: every sensor that has a reading gets at least one row, a sensor
    without readings gets none, and two readings of one sensor that share
    the greatest timestamp are both returned. *)
Theorem get_current_temperatures_latest d :
  select_current (temperature_readings d) =
    filter (is_latest (temperature_readings d)) (temperature_readings d) /\
  (forall tr, In tr (select_current (temperature_readings d)) <->
     In tr (temperature_readings d) /\
     forall o, In o (temperature_readings d) ->
       r_sensor_id o = r_sensor_id tr -> (r_timestamp o <= r_timestamp tr)%Z) /\
  (forall r, In r (temperature_readings d) ->
     exists x, In x (get_current_temperatures d) /\
               c_sensor_id x = r_sensor_id r /\
               (r_timestamp r <= c_timestamp x)%Z) /\
  (forall x, In x (get_current_temperatures d) ->
     exists r, In r (temperature_readings d) /\
               c_sensor_id x = r_sensor_id r /\
               c_temperature x = r_temperature r /\
               c_location x = r_location r /\
               c_timestamp x = r_timestamp r).
Proof.
  set (rows := temperature_readings d).
  assert (C : forall tr, In tr (select_current rows) <->
     In tr rows /\
     forall o, In o rows ->
       r_sensor_id o = r_sensor_id tr -> (r_timestamp o <= r_timestamp tr)%Z).
  { intros tr. rewrite select_current_latest, filter_In.
    unfold is_latest. rewrite forallb_forall. split.
    - intros [ I H ]. split; [ exact I | ]. intros o Io S.
      specialize (H o Io). apply String.eqb_eq in S. rewrite S in H.
      cbn in H. apply Z.leb_le, H.
    - intros [ I H ]. split; [ exact I | ]. intros o Io.
      destruct (String.eqb (r_sensor_id o) (r_sensor_id tr)) eqn:S; cbn;
        [ | reflexivity ].
      apply String.eqb_eq in S. apply Z.leb_le, H; assumption. }
  split; [ apply select_current_latest | ].
  split; [ exact C | ].
  split.
  - intros r I.
    destruct (max_timestamp_some (r_sensor_id r) rows r I eq_refl) as (m & M).
    destruct (max_timestamp_bound _ _ _ M) as [ B (o & Io & So & To) ].
    unfold get_current_temperatures. fold rows.
    eexists. split.
    + apply in_map. apply C. split; [ exact Io | ].
      intros o' Io' S'. rewrite To. apply B; congruence.
    + cbn. split; [ exact So | ]. rewrite To. apply B; auto.
  - intros x I. unfold get_current_temperatures in I. fold rows in I.
    apply in_map_iff in I. destruct I as (r & <- & I).
    apply C in I. exists r. cbn. repeat split; auto. apply I.
Qed.

(** ** Stopping takes effect at the next test of the flag *)

Lemma active_set_nth_finished i l st :
  nth_error l i = Some st -> is_live st = true ->
  S (List.length (filter is_live (set_nth i Finished l))) =
  List.length (filter is_live l).
Proof.
  revert i. induction l as [ | x l IH ]; intros [ | i ] H L;
    cbn [nth_error set_nth filter is_live] in *; try discriminate.
  - injection H as ->. rewrite L. reflexivity.
  - destruct (is_live x); cbn [List.length]; rewrite <- (IH i H L); reflexivity.
Qed.

(** X16. [stop_monitoring] itself ends no worker. A worker inside the loop
    ends at its next test of the flag, without making a pass, when it finds
    the flag cleared; a call to [start_monitoring] that comes before that
    test sets the flag again, so that a stop followed at once by a start
    ends no worker and adds one. *)
Theorem stop_takes_effect_at_next_test w :
  active_workers (final_world (stop_monitoring w)) = active_workers w /\
  (forall i,
     nth_error (threads w) i = Some InLoop ->
     is_running (self w) = false ->
     thread_turn i w = Ok tt (with_threads (set_nth i Finished) w) /\
     S (active_workers (final_world (thread_turn i w))) = active_workers w) /\
  (exists w',
     run_events [ CallStop; CallStart ] w = Ok tt w' /\
     is_running (self w') = true /\
     active_workers w' = S (active_workers w) /\
     db w' = db w).
Proof.
  split; [ reflexivity | split ].
  - intros i N Run.
    assert (E : thread_turn i w = Ok tt (with_threads (set_nth i Finished) w)).
    { unfold thread_turn, bind, get_world. cbv beta iota.
      rewrite N, Run. reflexivity. }
    split; [ exact E | ]. rewrite E. cbn [final_world].
    unfold active_workers. cbn [threads with_threads].
    apply (active_set_nth_finished _ _ InLoop N). reflexivity.
  - eexists. split; [ reflexivity | ].
    split; [ reflexivity | ]. split; [ | reflexivity ].
    unfold active_workers. cbn. rewrite filter_app, length_app. cbn. lia.
Qed.

Lemma stop_takes_effect_at_next_test_witness :
  let w := final_world
             (run_events [ CallStart; Turn 0; Turn 0; CallStop ] demo_world) in
  nth_error (threads w) 0 = Some InLoop /\
  is_running (self w) = false /\
  threads (final_world (thread_turn 0 w)) = [ Finished ] /\
  db (final_world (thread_turn 0 w)) = db w.
Proof.
  cbv zeta.
  assert (N : nth_error
                (threads (final_world
                   (run_events [ CallStart; Turn 0; Turn 0; CallStop ] demo_world)))
                0 = Some InLoop) by (vm_compute; reflexivity).
  assert (R : is_running
                (self (final_world
                   (run_events [ CallStart; Turn 0; Turn 0; CallStop ] demo_world)))
              = false) by (vm_compute; reflexivity).
  split; [ exact N | ]. split; [ exact R | ].
  destruct (stop_takes_effect_at_next_test
              (final_world
                 (run_events [ CallStart; Turn 0; Turn 0; CallStop ] demo_world)))
    as (_ & T & _).
  destruct (T 0%nat N R) as (E & _). rewrite E. cbn [final_world].
  split; vm_compute; reflexivity.
Defined.

(** ** No alert without a reading *)

(** What [check_alerts] does to the file, whatever its outcome. *)
Lemma check_alerts_db sensor_id t w :
  temperature_readings (db (final_world (check_alerts sensor_id t w))) =
    temperature_readings (db w) /\
  (alerts (db (final_world (check_alerts sensor_id t w))) = alerts (db w) \/
   exists a,
     alerts (db (final_world (check_alerts sensor_id t w))) =
       alerts (db w) ++ [ a ] /\
     a_sensor_id a = sensor_id /\ a_temperature a = t).
Proof.
  unfold check_alerts, store_alert, sqlite3_connect, cursor_execute,
    conn_commit, db_operation, sensors_lookup, logger_warning, print,
    bind, get_world, modify, ret.
  cbv beta iota.
  destruct (Qgtb _ _); [ | destruct (Qltb _ _) ]; try (split; auto; fail);
    (destruct (Dict.get _ _); [ | split; auto ]);
    (destruct (io_fail w (io_pos w)); cbn; [ split; auto | ]);
    (destruct (io_fail w (S (io_pos w))); cbn; [ split; auto | ]);
    (destruct (io_fail w (S (S (io_pos w)))); cbn; [ split; auto | ]);
    (split; [ reflexivity | right; eexists; repeat split; reflexivity ]).
Qed.

Lemma alerts_have_readings_more d d' :
  alerts d' = alerts d ->
  (exists new, temperature_readings d' = temperature_readings d ++ new) ->
  alerts_have_readings d -> alerts_have_readings d'.
Proof.
  intros A (new & R) H. unfold alerts_have_readings in *. rewrite A, R.
  eapply Forall_impl; [ | exact H ]. cbn beta.
  intros a (r & I & E). exists r. split; [ apply in_or_app; left; exact I | exact E ].
Qed.

Lemma keeps_alerts_backed_process_sensor sensor_id :
  respects keeps_alerts_backed (process_sensor sensor_id).
Proof.
  intros w Inv. unfold process_sensor, bind.
  destruct (generate_returns sensor_id w) as (t & f & G). rewrite G.
  destruct (store_reading sensor_id t (with_rng_pos f w)) as [ [] w1 | e w1 ] eqn:S;
    cbn [final_world].
  2: { destruct (store_reading_raises _ _ _ _ _ S) as (_ & D & _).
       rewrite D. exact Inv. }
  assert (R1 : exists s,
            temperature_readings (db w1) =
              temperature_readings (db w) ++
              [ {| r_id := next_id r_id (temperature_readings (db w));
                   r_sensor_id := sensor_id; r_temperature := t;
                   r_timestamp := clock w; r_location := location s |} ] /\
            alerts (db w1) = alerts (db w)).
  { revert S.
    unfold store_reading, sqlite3_connect, cursor_execute, conn_commit,
      db_operation, sensors_lookup, bind, get_world, modify.
    cbn.
    destruct (io_fail w (io_pos w)); cbn; [ discriminate | ].
    destruct (Dict.get (sensors (self w)) sensor_id) as [ s | ]; cbn;
      [ | discriminate ].
    destruct (io_fail w (S (io_pos w))); cbn; [ discriminate | ].
    destruct (io_fail w (S (S (io_pos w)))); cbn; [ discriminate | ].
    intros H. injection H as <-. exists s. split; reflexivity. }
  destruct R1 as (s & R1 & A1).
  assert (Inv1 : alerts_have_readings (db w1)).
  { apply (alerts_have_readings_more (db w)); eauto. }
  destruct (check_alerts_db sensor_id t w1) as [ R2 A2 ].
  assert (Inv2 : alerts_have_readings
                   (db (final_world (check_alerts sensor_id t w1)))).
  { unfold alerts_have_readings in *. rewrite R2.
    destruct A2 as [ -> | (a & -> & Ea & Et) ]; [ exact Inv1 | ].
    apply Forall_app. split; [ exact Inv1 | ].
    constructor; [ | constructor ].
    eexists. split; [ rewrite R1; apply in_or_app; right; left; reflexivity | ].
    cbn. split; congruence. }
  destruct (check_alerts sensor_id t w1) as [ [] w2 | e w2 ];
    cbn [final_world] in *; [ | exact Inv2 ].
  unfold update_last_reading, bind, sensors_lookup, get_world, modify.
  destruct (Dict.get (sensors (self w2)) sensor_id); exact Inv2.
Qed.

(** X17. No alert without a reading. After [__init__] on a new file,
    whatever the calls to [start_monitoring] and [stop_monitoring], the
    turns of the threads and the failures of the disk, every row of
    [alerts] has a row of [temperature_readings] with the same sensor id
    and the same temperature: an alert is stored only for a reading that
    was stored. *)
Theorem alerts_backed_by_readings draws faults now evs :
  alerts_have_readings
    (db (final_world
           (run_events evs (final_world (init (boot empty_db draws faults now)))))).
Proof.
  destruct (init_returns (boot empty_db draws faults now)) as (l & c & E).
  rewrite E. cbn [final_world].
  assert (K : respects keeps_alerts_backed (run_events evs)).
  { apply run_run_events.
    - intros w H. exact H.
    - intros w1 w2 w3 H1 H2 H. apply H2, H1, H.
    - apply keeps_alerts_backed_process_sensor.
    - intros f w H. exact H.
    - intros f w H. exact H.
    - intros f w H. exact H.
    - intros b w H. exact H. }
  apply K. constructor.
Qed.

(** ** The initial temperatures *)

(** X18. With draws in [0, 1), [__init__] gives every sensor an initial
    temperature in [15, 25] and the active flag, and no run changes either:
    after any calls to [start_monitoring] and [stop_monitoring] and any
    turns of the threads, every sensor of the registry still has them. *)
Theorem initial_temperatures_kept w0 evs :
  draws_in_unit w0 ->
  Forall (fun '(_, _, temp, active) => in_range 15 25 temp /\ active = true)
    (registry_entries
       (final_world (run_events evs (final_world (init w0))))).
Proof.
  intros D.
  assert (S : registry_entries
                (final_world (run_events evs (final_world (init w0)))) =
              registry_entries (final_world (init w0))).
  { apply (run_run_events registry_kept); unfold registry_kept; intros;
      try reflexivity.
    - congruence.
    - apply registry_kept_process_sensor. }
  rewrite S.
  destruct (init_returns w0) as (l & c & E). rewrite E.
  unfold registry_entries, fresh_sensor. cbn.
  repeat constructor; apply uniform_in_range; try discriminate; apply D.
Qed.

Lemma initial_temperatures_kept_witness :
  draws_in_unit demo_boot /\
  Forall (fun '(_, _, temp, active) => in_range 15 25 temp /\ active = true)
    (registry_entries
       (final_world (run_events [ CallStart; Turn 0; Turn 0 ] demo_world))).
Proof.
  assert (D : draws_in_unit demo_boot).
  { intros n. split; vm_compute; [ discriminate | reflexivity ]. }
  split; [ exact D | ].
  apply (initial_temperatures_kept demo_boot [ CallStart; Turn 0; Turn 0 ] D).
Defined.

(** ** Storage failures end the worker *)

Lemma store_reading_returns sensor_id t w w' :
  store_reading sensor_id t w = Ok tt w' ->
  exists s,
    Dict.get (sensors (self w)) sensor_id = Some s /\
    w' = with_db (insert_reading sensor_id t (location s) (clock w))
           (with_io_pos (fun k => S (S (S k))) w).
Proof.
  unfold store_reading, sqlite3_connect, cursor_execute, conn_commit,
    db_operation, sensors_lookup, bind, get_world, modify.
  destruct (io_fail w (io_pos w)); cbn; [ discriminate | ].
  destruct (Dict.get (sensors (self w)) sensor_id) as [ s | ]; cbn;
    [ | discriminate ].
  destruct (io_fail w (S (io_pos w))); cbn; [ discriminate | ].
  destruct (io_fail w (S (S (io_pos w)))); cbn; [ discriminate | ].
  intros H. injection H as <-. exists s. split; reflexivity.
Qed.

(** A failed [store_alert] leaves the monitor, the file, the log and the
    threads as they were. *)
Lemma store_alert_raises sensor_id kind t w e w' :
  store_alert sensor_id kind t w = Raise e w' ->
  self w' = self w /\ db w' = db w /\ log w' = log w /\ threads w' = threads w.
Proof.
  unfold store_alert, sqlite3_connect, cursor_execute, conn_commit,
    db_operation, bind, get_world, modify.
  destruct (io_fail w (io_pos w)); cbn.
  { intros H. injection H as _ <-. auto. }
  destruct (io_fail w (S (io_pos w))); cbn.
  { intros H. injection H as _ <-. auto. }
  destruct (io_fail w (S (S (io_pos w)))); cbn.
  { intros H. injection H as _ <-. auto. }
  discriminate.
Qed.

(** [check_alerts] lets a failure of [store_alert] through. *)
Lemma check_alerts_raises sensor_id s kind t w e w' :
  Dict.get (sensors (self w)) sensor_id = Some s ->
  alert_kind_of w t = Some kind ->
  store_alert sensor_id kind t w = Raise e w' ->
  check_alerts sensor_id t w = Raise e w'.
Proof.
  intros K A S. unfold alert_kind_of in A.
  unfold check_alerts, bind, get_world, sensors_lookup. cbv beta iota.
  destruct (Qgtb t (alert_threshold_high (self w)));
    [ | destruct (Qltb t (alert_threshold_low (self w))) ];
    try discriminate; injection A as <-; rewrite K, S; reflexivity.
Qed.

(** What follows from an exception that leaves the body of the loop. *)
Lemma pass_raises sensor_id before after w w1 e w3 i :
  is_running (self w) = true ->
  nth_error (threads w) i = Some InLoop ->
  Dict.keys (sensors (self w)) = before ++ sensor_id :: after ->
  for_each before process_sensor w = Ok tt w1 ->
  process_sensor sensor_id w1 = Raise e w3 ->
  is_running (self w3) = true /\
  tick w = Raise e w3 /\
  (forall passes, while_is_running (S passes) w = Raise e w3) /\
  thread_turn i w = Ok tt (with_threads (set_nth i Finished) w3) /\
  (forall n,
     run_events (repeat (Turn i) n) (with_threads (set_nth i Finished) w3) =
     Ok tt (with_threads (set_nth i Finished) w3)).
Proof.
  intros Run Th Keys Before P.
  assert (T : tick w = Raise e w3).
  { unfold tick. unfold bind at 1. unfold get_world. cbv beta iota.
    rewrite Keys. unfold bind.
    rewrite (for_each_raises before after sensor_id process_sensor w w1 e w3
               Before P).
    reflexivity. }
  assert (Flag : is_running (self w3) = true).
  { pose proof (respects_tick same_settings same_settings_frame) as RT.
    assert (C : forall sid t, respects same_settings (check_alerts sid t)).
    { intros sid t. apply respects_check_alerts; [ exact same_settings_frame | ].
      intros kind now w0. unfold same_settings. cbn. tauto. }
    destruct (RT C w) as (F & _). rewrite T in F. cbn [final_world] in F.
    rewrite F. exact Run. }
  split; [ exact Flag | ]. split; [ exact T | ]. split; [ | split ].
  - intros passes. cbn [while_is_running]. unfold bind at 1. unfold get_world.
    cbv beta iota. rewrite Run. unfold bind. rewrite T. reflexivity.
  - unfold thread_turn, bind, get_world. cbv beta iota.
    rewrite Th, Run. unfold try_except. rewrite T. reflexivity.
  - intros n. apply finished_thread_idle. cbn [threads with_threads].
    pose proof (tick_same_threads w) as ST. rewrite T in ST. cbn in ST.
    rewrite ST. apply (nth_error_set_nth _ _ _ _ Th).
Qed.

(** C3, as the code has it. Nothing in the loop catches a storage failure.
    When the monitor is running and, in a pass, the sensors before
    [sensor_id] were processed and a storage append for [sensor_id] raises
    [StorageError], be it the append of its reading or, the reading stored,
    the append of its alert, then nothing is added to the log and no alert
    is stored, the file holds at most the reading of [sensor_id] more than
    before the append, and the pass and the loop end with this exception in
    the world of the failure, so that the sensors after [sensor_id] are not
    processed; the thread that was making the pass ends while [is_running]
    is still set, and later turns of that thread do nothing. *)
Theorem storage_failure_ends_worker sensor_id before after t w w1 w2 w3 i :
  is_running (self w) = true ->
  nth_error (threads w) i = Some InLoop ->
  Dict.keys (sensors (self w)) = before ++ sensor_id :: after ->
  for_each before process_sensor w = Ok tt w1 ->
  generate_random_temperature sensor_id w1 = Ok t w2 ->
  append_fails sensor_id t w2 w3 ->
  log w3 = log w2 /\
  self w3 = self w2 /\
  alerts (db w3) = alerts (db w2) /\
  (temperature_readings (db w3) = temperature_readings (db w2) \/
   exists row,
     temperature_readings (db w3) = temperature_readings (db w2) ++ [ row ] /\
     r_sensor_id row = sensor_id) /\
  is_running (self w3) = true /\
  tick w = Raise StorageError w3 /\
  (forall passes, while_is_running (S passes) w = Raise StorageError w3) /\
  thread_turn i w = Ok tt (with_threads (set_nth i Finished) w3) /\
  is_running (self (final_world (thread_turn i w))) = true /\
  (forall n,
     run_events (repeat (Turn i) n) (with_threads (set_nth i Finished) w3) =
     Ok tt (with_threads (set_nth i Finished) w3)).
Proof.
  intros Run Th Keys Before Gen Fail.
  assert (P : process_sensor sensor_id w1 = Raise StorageError w3 /\
              log w3 = log w2 /\ self w3 = self w2 /\
              alerts (db w3) = alerts (db w2) /\
              (temperature_readings (db w3) = temperature_readings (db w2) \/
               exists row,
                 temperature_readings (db w3) =
                   temperature_readings (db w2) ++ [ row ] /\
                 r_sensor_id row = sensor_id)).
  { destruct Fail as [ Store | (w2' & kind & Store & Kind & Alert) ].
    - destruct (store_reading_raises _ _ _ _ _ Store) as (Sf & Db & Lg & _).
      split; [ unfold process_sensor, bind; rewrite Gen, Store; reflexivity | ].
      rewrite Db. auto.
    - destruct (store_reading_returns _ _ _ _ Store) as (s & K & E).
      destruct (store_alert_raises _ _ _ _ _ _ Alert) as (Sf & Db & Lg & _).
      assert (K' : Dict.get (sensors (self w2')) sensor_id = Some s)
        by (rewrite E; exact K).
      split.
      { unfold process_sensor, bind. rewrite Gen, Store.
        rewrite (check_alerts_raises _ _ _ _ _ _ _ K' Kind Alert). reflexivity. }
      rewrite Lg, Sf, Db, E. cbn.
      repeat (split; [ reflexivity | ]).
      right. eexists. split; reflexivity. }
  destruct P as (P & Lg & Sf & Al & Rd).
  destruct (pass_raises _ _ _ _ _ _ _ _ Run Th Keys Before P)
    as (Flag & T & W & Tu & Later).
  repeat (split; [ assumption | ]).
  split; [ rewrite Tu; exact Flag | exact Later ].
Qed.

Lemma storage_failure_ends_worker_witness :
  let w := final_world (run_events [ CallStart; Turn 0 ] failing_world) in
  let w1 := final_world (for_each [ "sensor_001" ] process_sensor w) in
  let w2 := final_world (generate_random_temperature "sensor_002" w1) in
  let w3 := final_world (store_reading "sensor_002" (270 # 10) w2) in
  let v := final_world (run_events [ CallStart; Turn 0 ] alert_failing_world) in
  let v1 := final_world (for_each [ "sensor_001" ] process_sensor v) in
  let v2 := final_world (generate_random_temperature "sensor_002" v1) in
  let v2' := final_world (store_reading "sensor_002" (270 # 10) v2) in
  let v3 := final_world (store_alert "sensor_002" "HIGH_TEMPERATURE" (270 # 10) v2') in
  (is_running (self w) = true /\
   nth_error (threads w) 0 = Some InLoop /\
   append_fails "sensor_002" (270 # 10) w2 w3 /\
   tick w = Raise StorageError w3 /\
   thread_turn 0 w = Ok tt (with_threads (set_nth 0 Finished) w3)) /\
  (is_running (self v) = true /\
   nth_error (threads v) 0 = Some InLoop /\
   append_fails "sensor_002" (270 # 10) v2 v3 /\
   tick v = Raise StorageError v3 /\
   thread_turn 0 v = Ok tt (with_threads (set_nth 0 Finished) v3)).
Proof.
  cbv zeta. split.
  - assert (F : append_fails "sensor_002" (270 # 10)
        (final_world (generate_random_temperature "sensor_002"
           (final_world (for_each [ "sensor_001" ] process_sensor
              (final_world (run_events [ CallStart; Turn 0 ] failing_world))))))
        (final_world (store_reading "sensor_002" (270 # 10)
           (final_world (generate_random_temperature "sensor_002"
              (final_world (for_each [ "sensor_001" ] process_sensor
                 (final_world (run_events [ CallStart; Turn 0 ] failing_world))))))))).
    { left. vm_compute. reflexivity. }
    split; [ reflexivity | ]. split; [ reflexivity | ]. split; [ exact F | ].
    refine ((fun H => conj (proj1 (proj2 (proj2 (proj2 (proj2 (proj2 H))))))
                           (proj1 (proj2 (proj2 (proj2 (proj2 (proj2 (proj2 (proj2 H)))))))))
              (storage_failure_ends_worker "sensor_002" [ "sensor_001" ]
                 [ "sensor_003"; "sensor_004"; "sensor_005" ] (270 # 10)
                 _ _ _ _ 0%nat _ _ _ _ _ F));
      vm_compute; reflexivity.
  - assert (F : append_fails "sensor_002" (270 # 10)
        (final_world (generate_random_temperature "sensor_002"
           (final_world (for_each [ "sensor_001" ] process_sensor
              (final_world (run_events [ CallStart; Turn 0 ] alert_failing_world))))))
        (final_world (store_alert "sensor_002" "HIGH_TEMPERATURE" (270 # 10)
           (final_world (store_reading "sensor_002" (270 # 10)
              (final_world (generate_random_temperature "sensor_002"
                 (final_world (for_each [ "sensor_001" ] process_sensor
                    (final_world (run_events [ CallStart; Turn 0 ] alert_failing_world))))))))))).
    { right. eexists. exists "HIGH_TEMPERATURE".
      split; [ vm_compute; reflexivity | ].
      split; vm_compute; reflexivity. }
    split; [ reflexivity | ]. split; [ reflexivity | ]. split; [ exact F | ].
    refine ((fun H => conj (proj1 (proj2 (proj2 (proj2 (proj2 (proj2 H))))))
                           (proj1 (proj2 (proj2 (proj2 (proj2 (proj2 (proj2 (proj2 H)))))))))
              (storage_failure_ends_worker "sensor_002" [ "sensor_001" ]
                 [ "sensor_003"; "sensor_004"; "sensor_005" ] (270 # 10)
                 _ _ _ _ 0%nat _ _ _ _ _ F));
      vm_compute; reflexivity.
Defined.
